(** * Shallow embedding of the BiR schema-mapping and validation services

    Sources embedded here (all under src/backend/app):
    - models/validation.py        : ValidationIssue, ValidationResult,
                                    BatchValidationResult, ClassMapping,
                                    PropertyMapping, SchemaInfo
    - services/schema_mapper.py   : SchemaMapper
    - services/response_validator.py : ResponseValidator
    - services/sparql_generator.py   : SPARQLGenerator
    - services/shacl_validator.py    : SHACLValidator.validate_rdf

    Python strings are modelled as Rocq [string] (ASCII characters only);
    Python dicts as association lists with Python's insertion-order update
    semantics; exceptions as the [Raise] branch of [py_result]. *)

From Stdlib Require Import String Ascii List ZArith Bool Lia.
From Stdlib Require Import Numbers.DecimalString.
From Stdlib Require Numbers.DecimalPos.
Import ListNotations.
Open Scope list_scope.
Open Scope string_scope.
#[export] Set Warnings "-register-all".

(* ------------------------------------------------------------------ *)
(** ** Python runtime fragment *)

(** Python exceptions that can escape the modelled code. *)
Inductive exn : Type :=
| ValueError (msg : string)
| PydanticValidationError (msg : string).

(** Result of a Python call: a value, or a raised exception. *)
Inductive py_result (A : Type) : Type :=
| Ok (a : A)
| Raise (e : exn).
Arguments Ok {A} a.
Arguments Raise {A} e.

Definition py_bind {A B} (m : py_result A) (k : A -> py_result B) : py_result B :=
  match m with Ok a => k a | Raise e => Raise e end.

Notation "x <- m ;; k" := (py_bind m (fun x => k))
  (at level 61, m at next level, right associativity).

(** JSON-shaped Python values as they reach the validator
    ([dict[str, Any]] payloads decoded from request bodies).
    Floats are not modelled. *)
Inductive pyval : Type :=
| PNone
| PBool (b : bool)
| PInt (z : Z)
| PStr (s : string)
| PList (l : list pyval)
| PDict (d : list (string * pyval)).

(** Python truthiness ([bool(v)]). *)
Definition truthy (v : pyval) : bool :=
  match v with
  | PNone => false
  | PBool b => b
  | PInt z => negb (Z.eqb z 0)
  | PStr s => negb (String.eqb s "")
  | PList l => match l with [] => false | _ => true end
  | PDict d => match d with [] => false | _ => true end
  end.

(** [d.get(k)] on a dict with string keys (keys are unique). *)
Fixpoint dget {V} (d : list (string * V)) (k : string) : option V :=
  match d with
  | [] => None
  | (k', v) :: d' => if String.eqb k k' then Some v else dget d' k
  end.

(** [k in d] *)
Definition dmem {V} (d : list (string * V)) (k : string) : bool :=
  match dget d k with Some _ => true | None => false end.

(** [d[k] = v]: an existing key keeps its position, a new key is appended. *)
Fixpoint dset {V} (d : list (string * V)) (k : string) (v : V) : list (string * V) :=
  match d with
  | [] => [(k, v)]
  | (k', v') :: d' =>
      if String.eqb k k' then (k', v) :: d' else (k', v') :: dset d' k v
  end.

(** ["sep".join(l)] *)
Fixpoint join (sep : string) (l : list string) : string :=
  match l with
  | [] => ""
  | [s] => s
  | s :: l' => s ++ sep ++ join sep l'
  end.

Definition nl : string := String (ascii_of_nat 10) "".

(** The text [str(n)] gives for a Python int. Python (3.10.7 and later)
    refuses the conversion of an int of more than
    [sys.get_int_max_str_digits()] decimal digits (4300 by default) with
    [ValueError]; [fmt_int] below adds that check. [py_fmt] uses [str_int]
    directly: the integers it formats come from the request's JSON, whose
    decoder ([int()] on the literal) already refuses more than 4300 digits. *)
Definition str_int (z : Z) : string := NilEmpty.string_of_int (Z.to_int z).

(** The default of [sys.get_int_max_str_digits()]. *)
Definition MAX_STR_DIGITS : nat := 4300.

(** The number of decimal digits of [n], sign excluded. *)
Definition int_digits (z : Z) : nat := String.length (str_int (Z.abs z)).

Definition int_str_limit_msg : string :=
  "Exceeds the limit (4300 digits) for integer string conversion; use sys.set_int_max_str_digits() to increase the limit".

(** [str(n)], [f"{n}"]: raises past [MAX_STR_DIGITS] digits. *)
Definition fmt_int (z : Z) : py_result string :=
  if Nat.leb (int_digits z) MAX_STR_DIGITS then Ok (str_int z)
  else Raise (ValueError int_str_limit_msg).

(** [repr(s)] for a string; Python's escaping of quotes and control
    characters inside [s] is not modelled. *)
Definition repr_str (s : string) : string := "'" ++ s ++ "'".

(** [str(v)] ([quote = false]) and [repr(v)] ([quote = true]);
    containers print the [repr] of their elements. *)
Fixpoint py_fmt (quote : bool) (v : pyval) : string :=
  match v with
  | PNone => "None"
  | PBool true => "True"
  | PBool false => "False"
  | PInt z => str_int z
  | PStr s => if quote then repr_str s else s
  | PList l => "[" ++ join ", " (map (py_fmt true) l) ++ "]"
  | PDict d =>
      "{" ++ join ", " (map (fun kv => repr_str (fst kv) ++ ": " ++ py_fmt true (snd kv)) d) ++ "}"
  end.

Definition py_str : pyval -> string := py_fmt false.

(** [type(v).__name__] *)
Definition type_name (v : pyval) : string :=
  match v with
  | PNone => "NoneType" | PBool _ => "bool" | PInt _ => "int"
  | PStr _ => "str" | PList _ => "list" | PDict _ => "dict"
  end.

(** Substring test ([pat in s]). *)
Fixpoint contains (pat s : string) : bool :=
  String.prefix pat s ||
  match s with
  | EmptyString => false
  | String _ s' => contains pat s'
  end.

(** [s.lower()] on ASCII. *)
Definition lower_char (c : ascii) : ascii :=
  let n := nat_of_ascii c in
  if (65 <=? n)%nat && (n <=? 90)%nat then ascii_of_nat (n + 32) else c.

Fixpoint lower (s : string) : string :=
  match s with
  | EmptyString => EmptyString
  | String c s' => String (lower_char c) (lower s')
  end.

(** [s.startswith(p)] *)
Definition startswith (s p : string) : bool := String.prefix p s.

(* ------------------------------------------------------------------ *)
(** ** models/validation.py *)

Inductive ValidationSeverity : Type := ERROR | WARNING | INFO.

Definition severity_eqb (a b : ValidationSeverity) : bool :=
  match a, b with
  | ERROR, ERROR | WARNING, WARNING | INFO, INFO => true
  | _, _ => false
  end.

Inductive ValidationType : Type :=
| MISSING_REQUIRED | TYPE_MISMATCH | INVALID_RANGE | UNKNOWN_PROPERTY
| CARDINALITY | FORMAT | DOMAIN_VIOLATION | RANGE_VIOLATION.

Definition vtype_eqb (a b : ValidationType) : bool :=
  match a, b with
  | MISSING_REQUIRED, MISSING_REQUIRED | TYPE_MISMATCH, TYPE_MISMATCH
  | INVALID_RANGE, INVALID_RANGE | UNKNOWN_PROPERTY, UNKNOWN_PROPERTY
  | CARDINALITY, CARDINALITY | FORMAT, FORMAT
  | DOMAIN_VIOLATION, DOMAIN_VIOLATION | RANGE_VIOLATION, RANGE_VIOLATION => true
  | _, _ => false
  end.

(** [ValidationType.value] *)
Definition vtype_value (t : ValidationType) : string :=
  match t with
  | MISSING_REQUIRED => "missing_required" | TYPE_MISMATCH => "type_mismatch"
  | INVALID_RANGE => "invalid_range" | UNKNOWN_PROPERTY => "unknown_property"
  | CARDINALITY => "cardinality" | FORMAT => "format"
  | DOMAIN_VIOLATION => "domain_violation" | RANGE_VIOLATION => "range_violation"
  end.

Record ValidationIssue : Type := mkIssue {
  vi_type : ValidationType;
  vi_severity : ValidationSeverity;
  vi_field : string;
  vi_message : string;
  vi_expected : option string;
  vi_actual : option string;
  vi_wikidata_property : option string;
  vi_ontology_property : option string
}.

(** [ValidationResult]; the [validated_at] timestamp is not modelled. *)
Record ValidationResult : Type := mkResult {
  valid : bool;
  entity_type : string;
  entity_id : option string;
  issues : list ValidationIssue;
  error_count : nat;
  warning_count : nat;
  info_count : nat
}.

(** [ValidationResult.add_issue] *)
Definition add_issue (r : ValidationResult) (i : ValidationIssue) : ValidationResult :=
  let issues' := (issues r ++ [i])%list in
  match vi_severity i with
  | ERROR =>
      mkResult false (entity_type r) (entity_id r) issues'
               (S (error_count r)) (warning_count r) (info_count r)
  | WARNING =>
      mkResult (valid r) (entity_type r) (entity_id r) issues'
               (error_count r) (S (warning_count r)) (info_count r)
  | INFO =>
      mkResult (valid r) (entity_type r) (entity_id r) issues'
               (error_count r) (warning_count r) (S (info_count r))
  end.

(** A sequence of [add_issue] calls. *)
Definition add_issues (r : ValidationResult) (l : list ValidationIssue) : ValidationResult :=
  fold_left add_issue l r.

(** Number of issues of a given severity. *)
Definition count_sev (s : ValidationSeverity) (l : list ValidationIssue) : nat :=
  length (filter (fun i => severity_eqb (vi_severity i) s) l).

(** [BatchValidationResult]; the [validated_at] timestamp is not modelled. *)
Record BatchValidationResult : Type := mkBatch {
  total_entities : nat;
  valid_entities : nat;
  invalid_entities : nat;
  results : list ValidationResult;
  total_errors : nat;
  total_warnings : nat;
  summary : list (string * nat)
}.

(** [summary[key] = summary.get(key, 0) + 1] for each issue. *)
Definition bump_summary (sm : list (string * nat)) (i : ValidationIssue) : list (string * nat) :=
  let key := vtype_value (vi_type i) in
  let old := match dget sm key with Some n => n | None => 0 end in
  dset sm key (S old).

(** [BatchValidationResult.add_result] *)
Definition add_result (b : BatchValidationResult) (r : ValidationResult) : BatchValidationResult :=
  mkBatch (total_entities b)
          (if valid r then S (valid_entities b) else valid_entities b)
          (if valid r then invalid_entities b else S (invalid_entities b))
          (results b ++ [r])%list
          (total_errors b + error_count r)
          (total_warnings b + warning_count r)
          (fold_left bump_summary (issues r) (summary b)).

Record ClassMapping : Type := mkClassMapping {
  cm_ontology_uri : string;
  cm_ontology_local : string;
  cm_wikidata_uri : string;
  cm_wikidata_id : string;
  cm_label : option string;
  cm_parent_class : option string
}.

Record PropertyMapping : Type := mkPropertyMapping {
  pm_ontology_uri : string;
  pm_ontology_local : string;
  pm_wikidata_uri : string;
  pm_wikidata_id : string;
  pm_property_type : string;
  pm_domain : option string;
  pm_range : option string;
  pm_label : option string
}.

Record SchemaInfo : Type := mkSchemaInfo {
  class_mappings : list ClassMapping;
  property_mappings : list PropertyMapping;
  class_count : nat;
  property_count : nat;
  wikidata_to_ontology_class : list (string * string);
  ontology_to_wikidata_class : list (string * string);
  wikidata_to_ontology_property : list (string * string);
  ontology_to_wikidata_property : list (string * string)
}.

(* ------------------------------------------------------------------ *)
(** ** services/schema_mapper.py *)

(** One row of the class-mapping SELECT of [_extract_class_mappings], as
    returned by [OntologyService.query] ([?class] and [?equivalent] are
    outside any OPTIONAL, so they are always bound). *)
Record ClassRow : Type := mkClassRow {
  row_class : string;
  row_equivalent : string;
  row_label : option string;
  row_parent : option string
}.

(** One row of the property-mapping SELECT of [_extract_property_mappings]
    ([?type] is bound by BIND in both UNION branches). *)
Record PropertyRow : Type := mkPropertyRow {
  prow_property : string;
  prow_equivalent : string;
  prow_label : option string;
  prow_domain : option string;
  prow_range : option string;
  prow_type : string
}.

(** The loaded ontology, seen through the queries the mapper issues: the
    rows of the two SELECT queries (rdflib's evaluation of them over the
    graph is not modelled) and the answers of the
    [ASK { <sub> rdfs:subClassOf+ <sup> }] query of [_is_subclass_of]
    (an exception there answers [false]). *)
Record Ontology : Type := mkOntology {
  class_rows : list ClassRow;
  property_rows : list PropertyRow;
  subclass_plus : string -> string -> bool
}.

(** The mapper object: its ontology and the memoised [_schema_info]. *)
Record SchemaMapper : Type := mkSchemaMapper {
  mapper_ontology : Ontology;
  schema_info_cache : option SchemaInfo
}.

Fixpoint has_char (c : ascii) (s : string) : bool :=
  match s with
  | EmptyString => false
  | String x s' => Ascii.eqb x c || has_char c s'
  end.

(** [s.split(c)[-1]]: the part after the last [c]. *)
Fixpoint after_last (c : ascii) (s : string) : string :=
  match s with
  | EmptyString => EmptyString
  | String x s' =>
      if has_char c s' then after_last c s'
      else if Ascii.eqb x c then s' else s
  end.

(** [_extract_local_name] *)
Definition extract_local_name (uri : string) : string :=
  if has_char "#" uri then after_last "#" uri else after_last "/" uri.

Definition is_digit (c : ascii) : bool :=
  let n := nat_of_ascii c in (48 <=? n)%nat && (n <=? 57)%nat.

(** Longest prefix of ASCII digits, and the rest. *)
Fixpoint span_digits (s : string) : string * string :=
  match s with
  | String c s' =>
      if is_digit c then let (d, r) := span_digits s' in (String c d, r)
      else (EmptyString, s)
  | EmptyString => (EmptyString, EmptyString)
  end.

(** Python's [$] (no MULTILINE): end of string, or a final newline. *)
Definition dollar (s : string) : bool :=
  String.eqb s "" || String.eqb s nl.

(** [re.search(L + r'\d+$', s)], returning [group(0)]. *)
Definition letter_digits_end_at (L : ascii) (s : string) : option string :=
  match s with
  | String x s' =>
      if Ascii.eqb x L then
        let (d, r) := span_digits s' in
        if negb (String.eqb d "") && dollar r then Some (String L d) else None
      else None
  | EmptyString => None
  end.

Fixpoint search_letter_digits_end (L : ascii) (s : string) : option string :=
  match letter_digits_end_at L s with
  | Some m => Some m
  | None =>
      match s with
      | EmptyString => None
      | String _ s' => search_letter_digits_end L s'
      end
  end.

(** [_extract_wikidata_id] *)
Definition extract_wikidata_id (uri : string) : string :=
  match search_letter_digits_end "Q" uri with Some m => m | None => "" end.

(** [_extract_wikidata_property_id] *)
Definition extract_wikidata_property_id (uri : string) : string :=
  match search_letter_digits_end "P" uri with Some m => m | None => "" end.

(** [_extract_class_mappings] after the query: rows with an empty
    [ontology_uri] or [wikidata_uri] are skipped. *)
Definition extract_class_mappings (o : Ontology) : list ClassMapping :=
  flat_map (fun row =>
    let ontology_uri := row_class row in
    let wikidata_uri := row_equivalent row in
    if negb (String.eqb ontology_uri "") && negb (String.eqb wikidata_uri "") then
      [mkClassMapping ontology_uri (extract_local_name ontology_uri)
                      wikidata_uri (extract_wikidata_id wikidata_uri)
                      (row_label row) (row_parent row)]
    else []) (class_rows o).

(** [_extract_property_mappings] after the query. *)
Definition extract_property_mappings (o : Ontology) : list PropertyMapping :=
  flat_map (fun row =>
    let ontology_uri := prow_property row in
    let wikidata_uri := prow_equivalent row in
    if negb (String.eqb ontology_uri "") && negb (String.eqb wikidata_uri "") then
      [mkPropertyMapping ontology_uri (extract_local_name ontology_uri)
                         wikidata_uri (extract_wikidata_property_id wikidata_uri)
                         (prow_type row) (prow_domain row) (prow_range row)
                         (prow_label row)]
    else []) (property_rows o).

(** The index-building loops of [extract_mappings]. *)
Definition index_class (si : SchemaInfo) (cm : ClassMapping) : SchemaInfo :=
  mkSchemaInfo (class_mappings si) (property_mappings si)
    (class_count si) (property_count si)
    (dset (wikidata_to_ontology_class si) (cm_wikidata_id cm) (cm_ontology_uri cm))
    (dset (dset (ontology_to_wikidata_class si) (cm_ontology_uri cm) (cm_wikidata_id cm))
          (cm_ontology_local cm) (cm_wikidata_id cm))
    (wikidata_to_ontology_property si) (ontology_to_wikidata_property si).

Definition index_property (si : SchemaInfo) (pm : PropertyMapping) : SchemaInfo :=
  mkSchemaInfo (class_mappings si) (property_mappings si)
    (class_count si) (property_count si)
    (wikidata_to_ontology_class si) (ontology_to_wikidata_class si)
    (dset (wikidata_to_ontology_property si) (pm_wikidata_id pm) (pm_ontology_uri pm))
    (dset (dset (ontology_to_wikidata_property si) (pm_ontology_uri pm) (pm_wikidata_id pm))
          (pm_ontology_local pm) (pm_wikidata_id pm)).

(** The non-cached branch of [extract_mappings]. *)
Definition build_schema_info (o : Ontology) : SchemaInfo :=
  let cms := extract_class_mappings o in
  let pms := extract_property_mappings o in
  let si0 := mkSchemaInfo cms pms (length cms) (length pms) [] [] [] [] in
  let si1 := fold_left index_class cms si0 in
  fold_left index_property pms si1.

(** [extract_mappings(force_refresh)]: returns the schema and the mapper
    with its memo updated. *)
Definition extract_mappings (m : SchemaMapper) (force_refresh : bool)
  : SchemaInfo * SchemaMapper :=
  match schema_info_cache m with
  | Some si => if negb force_refresh then (si, m) else
      let si' := build_schema_info (mapper_ontology m) in
      (si', mkSchemaMapper (mapper_ontology m) (Some si'))
  | None =>
      let si' := build_schema_info (mapper_ontology m) in
      (si', mkSchemaMapper (mapper_ontology m) (Some si'))
  end.

(** The lookups below start with [schema = self.extract_mappings()]; they
    are modelled as functions of the mapper that read that schema and drop
    the memo update, which does not change the schema later calls read
    (see [extract_mappings_memo] below). *)
Definition schema (m : SchemaMapper) : SchemaInfo := fst (extract_mappings m false).

(** [identifier in (local, uri, wikidata_id, wikidata_uri)] *)
Definition in4 (x a b c d : string) : bool :=
  String.eqb x a || String.eqb x b || String.eqb x c || String.eqb x d.

Definition class_ids (cm : ClassMapping) : list string :=
  [cm_ontology_local cm; cm_ontology_uri cm; cm_wikidata_id cm; cm_wikidata_uri cm].

Definition property_ids (pm : PropertyMapping) : list string :=
  [pm_ontology_local pm; pm_ontology_uri pm; pm_wikidata_id pm; pm_wikidata_uri pm].

(** [get_class_mapping]: first mapping matching one of its four ids. *)
Definition get_class_mapping (m : SchemaMapper) (identifier : string) : option ClassMapping :=
  find (fun cm => in4 identifier (cm_ontology_local cm) (cm_ontology_uri cm)
                               (cm_wikidata_id cm) (cm_wikidata_uri cm))
       (class_mappings (schema m)).

(** [get_property_mapping] *)
Definition get_property_mapping (m : SchemaMapper) (identifier : string) : option PropertyMapping :=
  find (fun pm => in4 identifier (pm_ontology_local pm) (pm_ontology_uri pm)
                               (pm_wikidata_id pm) (pm_wikidata_uri pm))
       (property_mappings (schema m)).

(** [_is_subclass_of] *)
Definition is_subclass_of (m : SchemaMapper) (sub sup : string) : bool :=
  if String.eqb sub sup then true else subclass_plus (mapper_ontology m) sub sup.

(** [get_properties_for_class] *)
Definition get_properties_for_class (m : SchemaMapper) (class_identifier : string)
  : list PropertyMapping :=
  match get_class_mapping m class_identifier with
  | None => []
  | Some cm =>
      filter (fun pm =>
        match pm_domain pm with
        | Some d =>
            negb (String.eqb d "") &&
            (String.eqb d (cm_ontology_uri cm) || is_subclass_of m d (cm_ontology_uri cm))
        | None => false
        end) (property_mappings (schema m))
  end.

(** The constraint dict built per property by
    [get_expected_properties_for_class]. *)
Record ExpectedProperty : Type := mkExpected {
  ep_wikidata_property : string;
  ep_property_type : string;
  ep_range : option string;
  ep_label : option string;
  ep_required : bool
}.

(** [get_expected_properties_for_class]: [result[pm.ontology_local] = {...}]
    for each property of the class, with ["required": False]. *)
Definition get_expected_properties_for_class (m : SchemaMapper) (class_identifier : string)
  : list (string * ExpectedProperty) :=
  match get_class_mapping m class_identifier with
  | None => []
  | Some _ =>
      fold_left (fun acc pm =>
        dset acc (pm_ontology_local pm)
             (mkExpected (pm_wikidata_id pm) (pm_property_type pm)
                         (pm_range pm) (pm_label pm) false))
        (get_properties_for_class m class_identifier) []
  end.

(** [translate_to_wikidata] *)
Definition translate_to_wikidata (m : SchemaMapper) (ontology_identifier : string) : option string :=
  match get_class_mapping m ontology_identifier with
  | Some cm => Some (cm_wikidata_id cm)
  | None =>
      match get_property_mapping m ontology_identifier with
      | Some pm => Some (pm_wikidata_id pm)
      | None => None
      end
  end.

(** [translate_from_wikidata] *)
Definition translate_from_wikidata (m : SchemaMapper) (wikidata_id : string) : option string :=
  match get_class_mapping m wikidata_id with
  | Some cm => Some (cm_ontology_local cm)
  | None =>
      match get_property_mapping m wikidata_id with
      | Some pm => Some (pm_ontology_local pm)
      | None => None
      end
  end.

(* ------------------------------------------------------------------ *)
(** ** services/response_validator.py: the regular expressions *)

Definition obind {A B} (o : option A) (f : A -> option B) : option B :=
  match o with Some a => f a | None => None end.

(** [\d{n}] *)
Fixpoint digits_n (n : nat) (s : string) : option string :=
  match n with
  | O => Some s
  | S n' =>
      match s with
      | String c s' => if is_digit c then digits_n n' s' else None
      | EmptyString => None
      end
  end.

(** a literal character *)
Definition chr (c : ascii) (s : string) : option string :=
  match s with
  | String x s' => if Ascii.eqb x c then Some s' else None
  | EmptyString => None
  end.

(** [-?] in front of a digit: greedy, and backtracking cannot help since
    a digit never matches ['-']. *)
Definition opt_minus (s : string) : string :=
  match chr "-" s with Some s' => s' | None => s end.

(** [\d+] (greedy; the following parts of each pattern never start with a
    digit, so backtracking into it cannot help) *)
Definition digits_plus (s : string) : option string :=
  let (d, r) := span_digits s in if String.eqb d "" then None else Some r.

Definition ends (o : option string) : bool :=
  match o with Some r => dollar r | None => false end.

Definition matched (o : option string) : bool :=
  match o with Some _ => true | None => false end.

(** [re.match(r"^\d{4}-\d{2}-\d{2}$", s)] *)
Definition re_date (s : string) : bool :=
  ends (obind (digits_n 4 s) (fun r => obind (chr "-" r) (fun r =>
        obind (digits_n 2 r) (fun r => obind (chr "-" r) (digits_n 2))))).

(** [re.match(r"^\d{4}-\d{2}-\d{2}T\d{2}:\d{2}:\d{2}", s)] *)
Definition re_datetime (s : string) : bool :=
  matched (obind (digits_n 4 s) (fun r => obind (chr "-" r) (fun r =>
           obind (digits_n 2 r) (fun r => obind (chr "-" r) (fun r =>
           obind (digits_n 2 r) (fun r => obind (chr "T" r) (fun r =>
           obind (digits_n 2 r) (fun r => obind (chr ":" r) (fun r =>
           obind (digits_n 2 r) (fun r => obind (chr ":" r) (digits_n 2))))))))))).

(** [re.match(r"^-?\d{4}$", s)] *)
Definition re_gyear (s : string) : bool := ends (digits_n 4 (opt_minus s)).

(** [re.match(r"^-?\d+$", s)] *)
Definition re_integer (s : string) : bool := ends (digits_plus (opt_minus s)).

(** [re.match(r"^-?\d+\.?\d*$", s)] *)
Definition re_decimal (s : string) : bool :=
  ends (obind (digits_plus (opt_minus s)) (fun r =>
        let r' := match chr "." r with Some r' => r' | None => r end in
        Some (snd (span_digits r')))).

(** [re.match(r"^(true|false|0|1)$", s)] *)
Definition re_boolean (s : string) : bool :=
  existsb (fun alt => String.prefix alt s &&
                      dollar (substring (String.length alt) (String.length s) s))
          ["true"; "false"; "0"; "1"].

(** [re.match(r".*", s)] always returns a match object. *)
Definition re_any (s : string) : bool := true.

(** [re.match(r"^\d{4}-\d{2}$", s)] *)
Definition re_year_month (s : string) : bool :=
  ends (obind (digits_n 4 s) (fun r => obind (chr "-" r) (digits_n 2))).

Definition XSD (local : string) : string := "http://www.w3.org/2001/XMLSchema#" ++ local.

(** [ResponseValidator.DATATYPE_PATTERNS] *)
Definition DATATYPE_PATTERNS : list (string * (string -> bool)) :=
  [(XSD "date", re_date); (XSD "dateTime", re_datetime); (XSD "gYear", re_gyear);
   (XSD "integer", re_integer); (XSD "decimal", re_decimal);
   (XSD "boolean", re_boolean); (XSD "string", re_any)].

(** [QID_PATTERN.match] *)
Definition re_qid (s : string) : bool := ends (obind (chr "Q" s) digits_plus).

(** [WIKIDATA_URI_PATTERN.match] *)
Definition re_wikidata_uri (s : string) : bool :=
  let p := "http://www.wikidata.org/entity/" in
  String.prefix p s &&
  ends (obind (chr "Q" (substring (String.length p) (String.length s) s)) digits_plus).

(* ------------------------------------------------------------------ *)
(** ** [datetime.strptime] for the formats the validator uses

    [_strptime] compiles the format into a regex ([%Y] = [\d\d\d\d],
    [%m] = [1[0-2]|0[1-9]|[1-9]], [%d] = [3[01]|[12]\d|0[1-9]|[1-9]| [1-9]]),
    takes the first match found by backtracking, raises [ValueError] if
    data remains after it, and finally builds the date (missing month and
    day default to 1; [datetime_date] rejects year 0 and days past the end
    of the month). A parser below returns all parses in backtracking
    order. *)

Definition digit_val (c : ascii) : Z := Z.of_nat (nat_of_ascii c - 48).

Definition p_digit (s : string) : list (Z * string) :=
  match s with
  | String c s' => if is_digit c then [(digit_val c, s')] else []
  | EmptyString => []
  end.

Definition p_char_in (cs : list ascii) (s : string) : list (Z * string) :=
  match s with
  | String c s' => if existsb (Ascii.eqb c) cs then [(digit_val c, s')] else []
  | EmptyString => []
  end.

Definition p_lit (c : ascii) (s : string) : list (Z * string) :=
  match chr c s with Some s' => [(0%Z, s')] | None => [] end.

Definition p_seq (p : string -> list (Z * string)) (q : Z -> string -> list (Z * string))
  (s : string) : list (Z * string) :=
  flat_map (fun vr => q (fst vr) (snd vr)) (p s).

Definition p_ret (v : Z) (s : string) : list (Z * string) := [(v, s)].

(** a two-character alternative [a b] read as a decimal number *)
Definition p_two (p1 p2 : string -> list (Z * string)) : string -> list (Z * string) :=
  p_seq p1 (fun a => p_seq p2 (fun b => p_ret (10 * a + b)%Z)).

(** [%Y] *)
Definition p_Y : string -> list (Z * string) :=
  p_seq p_digit (fun a => p_seq p_digit (fun b => p_seq p_digit (fun c =>
  p_seq p_digit (fun d => p_ret (1000 * a + 100 * b + 10 * c + d)%Z)))).

Definition nonzero := ["1"; "2"; "3"; "4"; "5"; "6"; "7"; "8"; "9"]%char.

(** [%m]: [1[0-2]|0[1-9]|[1-9]] *)
Definition p_m (s : string) : list (Z * string) :=
  p_two (p_char_in ["1"%char]) (p_char_in ["0"; "1"; "2"]%char) s ++
  p_two (p_char_in ["0"%char]) (p_char_in nonzero) s ++
  p_char_in nonzero s.

(** [%d]: [3[01]|[12]\d|0[1-9]|[1-9]| [1-9]] *)
Definition p_d (s : string) : list (Z * string) :=
  p_two (p_char_in ["3"%char]) (p_char_in ["0"; "1"]%char) s ++
  p_two (p_char_in ["1"; "2"]%char) p_digit s ++
  p_two (p_char_in ["0"%char]) (p_char_in nonzero) s ++
  p_char_in nonzero s ++
  p_seq (p_lit " ") (fun _ => p_char_in nonzero) s.

Definition is_leap (y : Z) : bool :=
  (Z.eqb (y mod 4) 0 && negb (Z.eqb (y mod 100) 0)) || Z.eqb (y mod 400) 0.

Definition days_in_month (y m : Z) : Z :=
  match m with
  | 2%Z => if is_leap y then 29 else 28
  | 4%Z | 6%Z | 9%Z | 11%Z => 30
  | _ => 31
  end.

(** [datetime.date(y, m, d)] does not raise *)
Definition date_ok (y m d : Z) : bool :=
  (1 <=? y)%Z && (y <=? 9999)%Z && (1 <=? m)%Z && (m <=? 12)%Z &&
  (1 <=? d)%Z && (d <=? days_in_month y m)%Z.

(** The three formats, as parsers returning [(year, month, day)]. *)
Inductive date_format : Type := FMT_YMD | FMT_YM | FMT_Y.

Definition p_format (f : date_format) (s : string) : list ((Z * Z * Z) * string) :=
  match f with
  | FMT_YMD =>
      flat_map (fun yr => flat_map (fun mr => flat_map (fun dr =>
          [((fst yr, fst mr, fst dr), snd dr)])
        (p_seq (p_lit "-") (fun _ => p_d) (snd mr)))
        (p_seq (p_lit "-") (fun _ => p_m) (snd yr))) (p_Y s)
  | FMT_YM =>
      flat_map (fun yr => flat_map (fun mr => [((fst yr, fst mr, 1%Z), snd mr)])
        (p_seq (p_lit "-") (fun _ => p_m) (snd yr))) (p_Y s)
  | FMT_Y => map (fun yr => ((fst yr, 1%Z, 1%Z), snd yr)) (p_Y s)
  end.

(** [datetime.strptime(s, fmt)] succeeds (does not raise [ValueError]) *)
Definition strptime_ok (f : date_format) (s : string) : bool :=
  match p_format f s with
  | (ymd, rest) :: _ =>
      let '(y, m, d) := ymd in String.eqb rest "" && date_ok y m d
  | [] => false
  end.

(** [int(s)] on a string does not raise: surrounding whitespace, one sign,
    ASCII digits with single underscores between them. (The 4300-digit
    limit of recent CPython releases is not modelled.) *)
Definition py_space (c : ascii) : bool :=
  existsb (Nat.eqb (nat_of_ascii c)) [9; 10; 11; 12; 13; 28; 29; 30; 31; 32]%nat.

Fixpoint lstrip (s : string) : string :=
  match s with
  | String c s' => if py_space c then lstrip s' else s
  | EmptyString => EmptyString
  end.

Fixpoint rev_str (s : string) : string :=
  match s with
  | String c s' => rev_str s' ++ String c EmptyString
  | EmptyString => EmptyString
  end.

Definition strip (s : string) : string := rev_str (lstrip (rev_str (lstrip s))).

Fixpoint digits_underscores (s : string) : bool :=
  match s with
  | EmptyString => true
  | String c s' =>
      if is_digit c then digits_underscores s'
      else if Ascii.eqb c "_" then
        match s' with
        | String c2 _ => is_digit c2 && digits_underscores s'
        | EmptyString => false
        end
      else false
  end.

(** The number of decimal digits in [s]. *)
Fixpoint count_digits (s : string) : nat :=
  match s with
  | EmptyString => 0
  | String c s' => if is_digit c then S (count_digits s') else count_digits s'
  end.

(** [int(s)] succeeds: optional sign, digits with single underscores
    between them, surrounding white space, and at most [MAX_STR_DIGITS]
    digits (underscores not counted), past which [int()] raises
    [ValueError]. *)
Definition int_parses (s : string) : bool :=
  let t := strip s in
  let t' := match t with
            | String c r => if Ascii.eqb c "+" || Ascii.eqb c "-" then r else t
            | EmptyString => t
            end in
  match t' with
  | String c _ => is_digit c && digits_underscores t' && Nat.leb (count_digits t') MAX_STR_DIGITS
  | EmptyString => false
  end.

(* ------------------------------------------------------------------ *)
(** ** services/response_validator.py: ResponseValidator *)

Definition issue (t : ValidationType) (sev : ValidationSeverity) (field msg : string)
  (expected actual wikidata_property ontology_property : option string) : ValidationIssue :=
  mkIssue t sev field msg expected actual wikidata_property ontology_property.

(** The entity-reference check at the end of [_validate_object_property]. *)
Definition check_entity_ref (field_name : string) (entity_id : pyval)
  (wikidata_prop : option string) : list ValidationIssue :=
  if truthy entity_id then
    let s := py_str entity_id in
    if re_qid s || re_wikidata_uri s then []
    else [issue FORMAT WARNING field_name
            ("Value '" ++ s ++ "' doesn't look like a valid Wikidata entity")
            (Some "QID (e.g., Q23434) or Wikidata URI") (Some s) wikidata_prop None]
  else [].

(** [a or b or c] *)
Definition py_or3 (a b c : pyval) : pyval :=
  if truthy a then a else if truthy b then b else c.

Definition dget_none (d : list (string * pyval)) (k : string) : pyval :=
  match dget d k with Some v => v | None => PNone end.

(** [_validate_object_property] *)
Fixpoint validate_object_property (field_name : string) (value : pyval)
  (wikidata_prop : option string) : list ValidationIssue :=
  match value with
  | PDict d =>
      check_entity_ref field_name
        (py_or3 (dget_none d "qid") (dget_none d "value") (dget_none d "id")) wikidata_prop
  | PStr s => check_entity_ref field_name (PStr s) wikidata_prop
  | PList l => flat_map (fun item => validate_object_property field_name item wikidata_prop) l
  | _ =>
      [issue TYPE_MISMATCH ERROR field_name
         ("Object property '" ++ field_name ++ "' should be an entity reference")
         (Some "Entity reference (QID or URI)")
         (Some (type_name value ++ ": " ++ py_str value)) wikidata_prop None]
  end.

(** The patterns tried by [_validate_date_value], in order. *)
Definition date_patterns : list ((string -> bool) * date_format) :=
  [(re_date, FMT_YMD); (re_year_month, FMT_YM); (re_gyear, FMT_Y)].

(** The [for pattern, date_format in date_patterns] loop: [parsed]. *)
Fixpoint date_parsed (ps : list ((string -> bool) * date_format)) (s : string) : bool :=
  match ps with
  | [] => false
  | (re, fmt) :: ps' =>
      if re s then
        if startswith s "-" then true
        else if strptime_ok fmt s then true
        else date_parsed ps' s
      else date_parsed ps' s
  end.

(** [_validate_date_value] *)
Definition validate_date_value (field_name : string) (value : pyval)
  (wikidata_prop : option string) : list ValidationIssue :=
  let str_value := py_str value in
  if negb (date_parsed date_patterns str_value) && negb (String.eqb str_value "") then
    [issue FORMAT WARNING field_name
       ("Date value '" ++ str_value ++ "' may not be in standard format")
       (Some "ISO 8601 date (YYYY-MM-DD, YYYY-MM, or YYYY)") (Some str_value)
       wikidata_prop None]
  else [].

(** [_validate_integer_value]: [bool] is a subclass of [int]. *)
Definition validate_integer_value (field_name : string) (value : pyval)
  (wikidata_prop : option string) : list ValidationIssue :=
  match value with
  | PInt _ | PBool _ => []
  | _ =>
      if int_parses (py_str value) then []
      else [issue TYPE_MISMATCH ERROR field_name
              ("Expected integer value for '" ++ field_name ++ "'")
              (Some "Integer") (Some (type_name value ++ ": " ++ py_str value))
              wikidata_prop None]
  end.

(** [_get_datatype_name] *)
Definition get_datatype_name (uri : string) : string :=
  if has_char "#" uri then after_last "#" uri else after_last "/" uri.

(** [_validate_datatype_property] *)
Fixpoint validate_datatype_property (field_name : string) (value : pyval)
  (expected_range : option string) (wikidata_prop : option string) : list ValidationIssue :=
  match value with
  | PList l =>
      flat_map (fun item => validate_datatype_property field_name item expected_range wikidata_prop) l
  | _ =>
      let actual_value :=
        match value with
        | PDict d => match dget d "value" with Some v => v | None => value end
        | _ => value
        end in
      let range_issues :=
        match expected_range with
        | Some r =>
            match dget DATATYPE_PATTERNS r with
            | Some pattern =>
                let str_value := py_str actual_value in
                if negb (String.eqb r "") && negb (pattern str_value) then
                  [issue TYPE_MISMATCH WARNING field_name
                     "Value doesn't match expected datatype format"
                     (Some (get_datatype_name r))
                     (Some (type_name actual_value ++ ": " ++ substring 0 50 str_value ++ "..."))
                     wikidata_prop None]
                else []
            | None => []
            end
        | None => []
        end in
      let specific_issues :=
        match expected_range with
        | Some r =>
            if String.eqb r "" then []
            else if contains "date" (lower r) then
              validate_date_value field_name actual_value wikidata_prop
            else if contains "integer" (lower r) then
              validate_integer_value field_name actual_value wikidata_prop
            else []
        | None => []
        end in
      (range_issues ++ specific_issues)%list
  end.

(** [_validate_property_value] *)
Definition validate_property_value (field_name : string) (value : pyval)
  (prop_info : ExpectedProperty) (strict : bool) : list ValidationIssue :=
  match value with
  | PNone => []
  | _ =>
      if String.eqb (ep_property_type prop_info) "ObjectProperty" then
        validate_object_property field_name value (Some (ep_wikidata_property prop_info))
      else if String.eqb (ep_property_type prop_info) "DatatypeProperty" then
        validate_datatype_property field_name value (ep_range prop_info)
                                   (Some (ep_wikidata_property prop_info))
      else []
  end.

(** [_extract_entity_id]: the first of [qid], [id], [uri], [item] present;
    a dict yields its ["value"] entry unconverted, anything else [str()]. *)
Definition extract_entity_id (data : list (string * pyval)) : pyval :=
  match find (fun k => dmem data k) ["qid"; "id"; "uri"; "item"] with
  | Some k =>
      match dget data k with
      | Some (PDict d) => dget_none d "value"
      | Some v => PStr (py_str v)
      | None => PNone
      end
  | None => PNone
  end.

(** Pydantic v2 validation of the [entity_id: str | None] field of
    [ValidationResult] (no number-to-string coercion). *)
Definition validate_entity_id_field (v : pyval) : py_result (option string) :=
  match v with
  | PNone => Ok None
  | PStr s => Ok (Some s)
  | _ => Raise (PydanticValidationError "entity_id: Input should be a valid string")
  end.

Definition is_meta_field (f : string) : bool :=
  existsb (String.eqb f) ["qid"; "id"; "uri"; "type"].

(** One iteration of the [for field_name, field_value in data.items()] loop. *)
Definition check_field (m : SchemaMapper) (expected_props : list (string * ExpectedProperty))
  (strict : bool) (r : ValidationResult) (fv : string * pyval) : ValidationResult :=
  let (field_name, field_value) := fv in
  if is_meta_field field_name then r else
  match dget expected_props field_name with
  | Some prop_info =>
      add_issues r (validate_property_value field_name field_value prop_info strict)
  | None =>
      let wd_prop := translate_from_wikidata m field_name in
      let resolved := match wd_prop with Some s => negb (String.eqb s "") | None => false end in
      if resolved then r
      else add_issue r
             (issue UNKNOWN_PROPERTY (if strict then ERROR else WARNING) field_name
                ("Property '" ++ field_name ++ "' is not defined in the ontology schema")
                None (Some field_name) None None)
  end.

(** The issue emitted for an expected property absent from the data. *)
Definition missing_issue (strict : bool) (pi : string * ExpectedProperty) : ValidationIssue :=
  let (prop_name, prop_info) := pi in
  let is_required := ep_required prop_info in
  let severity := if is_required then ERROR else if strict then WARNING else INFO in
  issue MISSING_REQUIRED severity prop_name
    ((if is_required then "Required" else "Optional") ++ " property '" ++ prop_name ++ "' is missing")
    (Some (ep_wikidata_property prop_info)) None
    (Some (ep_wikidata_property prop_info)) (Some prop_name).

(** One iteration of the [for prop_name, prop_info in expected_props.items()] loop. *)
Definition check_missing (data : list (string * pyval)) (strict : bool)
  (r : ValidationResult) (pi : string * ExpectedProperty) : ValidationResult :=
  if dmem data (fst pi) then r else add_issue r (missing_issue strict pi).

(** [validate_entity] *)
Definition validate_entity (m : SchemaMapper) (entity_type : string)
  (data : list (string * pyval)) (strict : bool) : py_result ValidationResult :=
  eid <- validate_entity_id_field (extract_entity_id data) ;;
  let r0 := mkResult true entity_type eid [] 0 0 0 in
  match get_class_mapping m entity_type with
  | None =>
      Ok (add_issue r0
            (issue UNKNOWN_PROPERTY ERROR "entity_type" ("Unknown entity type: " ++ entity_type)
               (Some "One of: Author, LiteraryWork, Genre, etc.") (Some entity_type) None None))
  | Some _ =>
      let expected_props := get_expected_properties_for_class m entity_type in
      let r1 := fold_left (check_field m expected_props strict) data r0 in
      Ok (fold_left (check_missing data strict) expected_props r1)
  end.

(** The loop of [validate_batch]: an exception from [validate_entity]
    propagates out of it. *)
Fixpoint batch_loop (m : SchemaMapper) (entity_type : string) (strict : bool)
  (data_list : list (list (string * pyval))) (b : BatchValidationResult)
  : py_result BatchValidationResult :=
  match data_list with
  | [] => Ok b
  | data :: rest =>
      r <- validate_entity m entity_type data strict ;;
      batch_loop m entity_type strict rest (add_result b r)
  end.

(** [validate_batch] *)
Definition validate_batch (m : SchemaMapper) (entity_type : string)
  (data_list : list (list (string * pyval))) (strict : bool) : py_result BatchValidationResult :=
  batch_loop m entity_type strict data_list (mkBatch (length data_list) 0 0 [] 0 0 []).

(* ------------------------------------------------------------------ *)
(** ** A fixture ontology in the shape of the project's literature ontology *)

Definition LIT (local : string) : string := "http://literature-explorer.org/ontology#" ++ local.
Definition WD (q : string) : string := "http://www.wikidata.org/entity/" ++ q.
Definition WDT (p : string) : string := "http://www.wikidata.org/prop/direct/" ++ p.

Definition fixture_ontology : Ontology :=
  mkOntology
    [mkClassRow (LIT "Author") (WD "Q482980") (Some "Author") (Some "http://xmlns.com/foaf/0.1/Person");
     mkClassRow (LIT "LiteraryWork") (WD "Q7725634") (Some "Literary Work") None]
    [mkPropertyRow (LIT "name") (WDT "P1559") (Some "name") (Some (LIT "Author"))
                   (Some (XSD "string")) "DatatypeProperty";
     mkPropertyRow (LIT "birthDate") (WDT "P569") (Some "birth date") (Some (LIT "Author"))
                   (Some (XSD "date")) "DatatypeProperty";
     mkPropertyRow (LIT "birthPlace") (WDT "P19") (Some "birth place") (Some (LIT "Author"))
                   (Some (LIT "Place")) "ObjectProperty";
     mkPropertyRow (LIT "writtenBy") (WDT "P50") (Some "written by") (Some (LIT "LiteraryWork"))
                   (Some (LIT "Author")) "ObjectProperty"]
    (fun _ _ => false).

(** A freshly constructed mapper over the fixture (nothing memoised yet). *)
Definition fixture_mapper : SchemaMapper := mkSchemaMapper fixture_ontology None.

(* ------------------------------------------------------------------ *)
(** ** services/sparql_generator.py *)

Definition dq : string := String (ascii_of_nat 34) EmptyString.

(** [SPARQLGenerator.WIKIDATA_PREFIXES] (a triple-quoted string that starts
    and ends with a newline). *)
Definition WIKIDATA_PREFIXES : string :=
  nl ++ "PREFIX wd: <http://www.wikidata.org/entity/>" ++
  nl ++ "PREFIX wdt: <http://www.wikidata.org/prop/direct/>" ++
  nl ++ "PREFIX wikibase: <http://wikiba.se/ontology#>" ++
  nl ++ "PREFIX bd: <http://www.bigdata.com/rdf#>" ++
  nl ++ "PREFIX rdfs: <http://www.w3.org/2000/01/rdf-schema#>" ++
  nl ++ "PREFIX schema: <http://schema.org/>" ++ nl.

Definition LABEL_SERVICE : string :=
  "  SERVICE wikibase:label { bd:serviceParam wikibase:language " ++ dq ++
  "[AUTO_LANGUAGE],en" ++ dq ++ ". }".

(** [if x:] on an optional string argument *)
Definition given_str (o : option string) : option string :=
  match o with Some s => if String.eqb s "" then None else Some s | None => None end.

(** [if x:] on an optional int argument *)
Definition given_int (o : option Z) : option Z :=
  match o with Some z => if Z.eqb z 0 then None else Some z | None => None end.

Definition entity_select_vars (prop : PropertyMapping) : list string :=
  let var_name := "?" ++ pm_ontology_local prop in
  if String.eqb (pm_property_type prop) "ObjectProperty"
  then [var_name; var_name ++ "Label"] else [var_name].

Definition entity_optional (prop : PropertyMapping) : string :=
  "OPTIONAL { ?item wdt:" ++ pm_wikidata_id prop ++ " ?" ++ pm_ontology_local prop ++ " . }".

(** [generate_entity_query] *)
Definition generate_entity_query (m : SchemaMapper) (entity_type : string)
  (qid : option string) (include_labels : bool) (limit : Z) : py_result string :=
  match get_class_mapping m entity_type with
  | None => Raise (ValueError ("Unknown entity type: " ++ entity_type))
  | Some class_mapping =>
      let properties := get_properties_for_class m entity_type in
      let select_vars := app ["?item"; "?itemLabel"] (flat_map entity_select_vars properties) in
      let patterns :=
        match given_str qid with
        | Some q => ["BIND(wd:" ++ q ++ " AS ?item)"]
        | None => ["?item wdt:P31/wdt:P279* wd:" ++ cm_wikidata_id class_mapping ++ " ."]
        end in
      let optionals := map entity_optional properties in
      limit_s <- fmt_int limit ;;
      let query_parts :=
        app [WIKIDATA_PREFIXES;
             "SELECT DISTINCT " ++ join " " select_vars;
             "WHERE {";
             "  " ++ join (nl ++ "  ") patterns;
             "  " ++ join (nl ++ "  ") optionals]
        (app (if include_labels then [LABEL_SERVICE] else [])
             ["}"; "LIMIT " ++ limit_s]) in
      Ok (join nl query_parts)
  end.

(** [if y: filters.append(f"{prefix}{y}")] on an optional int filter. *)
Definition int_filter (prefix : string) (o : option Z) : py_result (list string) :=
  match given_int o with
  | Some y => ys <- fmt_int y ;; Ok [prefix ++ ys]
  | None => Ok []
  end.

(** [query_parts.append(f"LIMIT {limit}")] and
    [if offset > 0: query_parts.append(f"OFFSET {offset}")]. *)
Definition page_lines (limit offset : Z) : py_result (list string) :=
  limit_s <- fmt_int limit ;;
  if (0 <? offset)%Z then
    offset_s <- fmt_int offset ;; Ok ["LIMIT " ++ limit_s; "OFFSET " ++ offset_s]
  else Ok ["LIMIT " ++ limit_s].

(** The tail shared by the author and work queries, [page] being the
    lines of [page_lines]. *)
Definition filtered_query (select_vars patterns optionals filters page : list string)
  : string :=
  let query_parts :=
    app [WIKIDATA_PREFIXES;
         "SELECT DISTINCT " ++ join " " select_vars;
         "WHERE {";
         "  " ++ join (nl ++ "  ") patterns;
         "  " ++ join (nl ++ "  ") optionals]
    (app (match filters with [] => [] | _ => ["  FILTER(" ++ join " && " filters ++ ")"] end)
    (app [LABEL_SERVICE; "}"] page)) in
  join nl query_parts.

(** [generate_author_query]. Its first statement,
    [author_props = self._mapper.get_expected_properties_for_class("Author")],
    is never read afterwards, so the mapper is not an argument here. *)
Definition generate_author_query (author_qid country_qid movement_qid : option string)
  (year_start year_end : option Z) (limit offset : Z) : py_result string :=
  let select_vars :=
    ["?author"; "?authorLabel"; "?authorDescription"; "?birthDate"; "?deathDate";
     "?birthPlace"; "?birthPlaceLabel"; "?deathPlace"; "?deathPlaceLabel";
     "?nationality"; "?nationalityLabel"; "?movement"; "?movementLabel"; "?image"] in
  let pattern0 :=
    match given_str author_qid with
    | Some q => "BIND(wd:" ++ q ++ " AS ?author)"
    | None => "{ ?author wdt:P31 wd:Q482980 } UNION { ?author wdt:P106 wd:Q36180 }"
    end in
  let optionals :=
    ["OPTIONAL { ?author wdt:P569 ?birthDate . }"; "OPTIONAL { ?author wdt:P570 ?deathDate . }";
     "OPTIONAL { ?author wdt:P19 ?birthPlace . }"; "OPTIONAL { ?author wdt:P20 ?deathPlace . }";
     "OPTIONAL { ?author wdt:P27 ?nationality . }"; "OPTIONAL { ?author wdt:P135 ?movement . }";
     "OPTIONAL { ?author wdt:P18 ?image . }"] in
  let patterns :=
    app [pattern0] (app
     (match given_str country_qid with Some c => ["?author wdt:P27 wd:" ++ c ++ " ."] | None => [] end)
     (match given_str movement_qid with Some c => ["?author wdt:P135 wd:" ++ c ++ " ."] | None => [] end)) in
  f_start <- int_filter "YEAR(?birthDate) >= " year_start ;;
  f_end <- int_filter "YEAR(?birthDate) <= " year_end ;;
  page <- page_lines limit offset ;;
  Ok (filtered_query select_vars patterns optionals (app f_start f_end) page).

(** [generate_work_query] *)
Definition generate_work_query (work_qid author_qid genre_qid : option string)
  (year_start year_end : option Z) (limit offset : Z) : py_result string :=
  let select_vars :=
    ["?work"; "?workLabel"; "?workDescription"; "?author"; "?authorLabel";
     "?publicationDate"; "?genre"; "?genreLabel"; "?narrativeLocation";
     "?narrativeLocationLabel"; "?language"; "?languageLabel"] in
  let pattern0 :=
    match given_str work_qid with
    | Some q => "BIND(wd:" ++ q ++ " AS ?work)"
    | None => "?work wdt:P31/wdt:P279* wd:Q7725634 ."
    end in
  let optionals :=
    ["OPTIONAL { ?work wdt:P50 ?author . }"; "OPTIONAL { ?work wdt:P577 ?publicationDate . }";
     "OPTIONAL { ?work wdt:P136 ?genre . }"; "OPTIONAL { ?work wdt:P840 ?narrativeLocation . }";
     "OPTIONAL { ?work wdt:P407 ?language . }"] in
  let patterns :=
    app [pattern0] (app
     (match given_str author_qid with Some c => ["?work wdt:P50 wd:" ++ c ++ " ."] | None => [] end)
     (match given_str genre_qid with Some c => ["?work wdt:P136 wd:" ++ c ++ " ."] | None => [] end)) in
  f_start <- int_filter "YEAR(?publicationDate) >= " year_start ;;
  f_end <- int_filter "YEAR(?publicationDate) <= " year_end ;;
  page <- page_lines limit offset ;;
  Ok (filtered_query select_vars patterns optionals (app f_start f_end) page).

(* ------------------------------------------------------------------ *)
(** ** services/shacl_validator.py: [validate_rdf] *)

(** Modelled from the spec: [SHACLSeverity], [SHACLValidationViolation],
    [SHACLValidationResult] and its [add_violation] are imported by
    shacl_validator.py from models/validation.py but are not defined there.
    Following the spec (section 3, "SHACL Shape / Violation"), a violation
    binds a focus node, a result path, the offending value, the source
    shape/constraint, a severity in {Violation, Warning, Info} and a message;
    the result records conformance, the violations in order, the shapes
    used, the validation time and one counter per severity, and
    [add_violation] appends a violation and bumps the counter of its
    severity, as [ValidationResult.add_issue] does. The constraint-component
    enumeration lists the members shacl_validator.py names; a violation
    built without one gets [OTHER]. *)
Inductive SHACLSeverity : Type := SH_VIOLATION | SH_WARNING | SH_INFO.

Inductive SHACLConstraintComponent : Type :=
| MIN_COUNT | MAX_COUNT | DATATYPE | CLASS | NODE_KIND | MIN_LENGTH | MAX_LENGTH
| PATTERN | MIN_INCLUSIVE | MAX_INCLUSIVE | IN | HAS_VALUE | CLOSED | OTHER.

Record SHACLValidationViolation : Type := mkViolation {
  focus_node : string;
  result_path : option string;
  sv_value : option string;
  source_shape : string;
  source_constraint : option string;
  constraint_component : SHACLConstraintComponent;
  sv_severity : SHACLSeverity;
  sv_message : string
}.

Record SHACLValidationResult : Type := mkSHACLResult {
  conforms : bool;
  violations : list SHACLValidationViolation;
  shapes_used : list string;
  validation_time_ms : nat;
  violation_count : nat;
  sh_warning_count : nat;
  sh_info_count : nat
}.

Definition add_violation (r : SHACLValidationResult) (v : SHACLValidationViolation)
  : SHACLValidationResult :=
  let vs := app (violations r) [v] in
  match sv_severity v with
  | SH_VIOLATION => mkSHACLResult (conforms r) vs (shapes_used r) (validation_time_ms r)
                      (S (violation_count r)) (sh_warning_count r) (sh_info_count r)
  | SH_WARNING => mkSHACLResult (conforms r) vs (shapes_used r) (validation_time_ms r)
                      (violation_count r) (S (sh_warning_count r)) (sh_info_count r)
  | SH_INFO => mkSHACLResult (conforms r) vs (shapes_used r) (validation_time_ms r)
                      (violation_count r) (sh_warning_count r) (S (sh_info_count r))
  end.

(** [SHACLValidationResult(conforms=..., shapes_used=..., validation_time_ms=...)] *)
Definition new_shacl_result (c : bool) (used : list string) (ms : nat) : SHACLValidationResult :=
  mkSHACLResult c [] used ms 0 0 0.

Section SHACLValidator.

(** The collaborators of [validate_rdf]: rdflib's parser ([Graph.parse],
    an exception is [inl] with its text), pyshacl's [validate] over the
    validator's shapes and ontology graphs (an exception is [inl]),
    [_extract_violations_from_report], [_filter_shapes] and
    [_get_all_shape_names]. The clock is not modelled: the elapsed time
    is an argument. *)
Variable RDFGraph : Type.
Variable parse_graph : string -> string -> string + RDFGraph.
Variable shapes_graph : RDFGraph.
Variable shacl_validate : RDFGraph -> RDFGraph -> bool -> bool -> string + (bool * RDFGraph).
Variable extract_violations_from_report : RDFGraph -> list SHACLValidationViolation.
Variable filter_shapes : list string -> RDFGraph.
Variable all_shape_names : list string.

Definition format_map : list (string * string) :=
  [("turtle", "turtle"); ("json-ld", "json-ld"); ("n-triples", "nt"); ("xml", "xml"); ("n3", "n3")].

(** [validate_rdf] *)
Definition validate_rdf (data data_format : string) (target_shapes : option (list string))
  (inference abort_on_first : bool) (elapsed_ms : nat) : SHACLValidationResult :=
  let rdf_format := match dget format_map data_format with Some f => f | None => data_format end in
  match parse_graph data rdf_format with
  | inl e =>
      add_violation (new_shacl_result false [] elapsed_ms)
        (mkViolation "data_graph" None None "parsing" None OTHER SH_VIOLATION
                     ("Failed to parse RDF data: " ++ e))
  | inr data_graph =>
      let shapes_to_use :=
        match target_shapes with Some (_ :: _ as ts) => filter_shapes ts | _ => shapes_graph end in
      match shacl_validate data_graph shapes_to_use inference abort_on_first with
      | inl e =>
          add_violation
            (new_shacl_result false (match target_shapes with Some ts => ts | None => [] end) elapsed_ms)
            (mkViolation "validation" None None "shacl_engine" None OTHER SH_VIOLATION
                         ("SHACL validation error: " ++ e))
      | inr (c, results_graph) =>
          let used := match target_shapes with
                      | Some (_ :: _ as ts) => ts
                      | _ => all_shape_names
                      end in
          fold_left add_violation (extract_violations_from_report results_graph)
                    (new_shacl_result c used elapsed_ms)
      end
  end.

End SHACLValidator.

(* ------------------------------------------------------------------ *)
(** ** Scenario inputs and auxiliary predicates of the properties *)

(** The bookkeeping of [add_issue]: the counters track the issues list. *)
Definition counts_track (r : ValidationResult) : Prop :=
  error_count r = count_sev ERROR (issues r) /\
  warning_count r = count_sev WARNING (issues r) /\
  info_count r = count_sev INFO (issues r).

(** The property of claim C1, for a result [r] reached from [r0]. *)
Definition c1_invariant (r : ValidationResult) : Prop :=
  valid r = Nat.eqb (error_count r) 0 /\ counts_track r.

(** A result built with [valid=true] and zero counts but with an issues
    list passed to the constructor. *)
Definition prefilled_result : ValidationResult :=
  mkResult true "Author" None
    [issue TYPE_MISMATCH ERROR "birthDate" "Expected date format, got string"
       (Some "xsd:date") (Some "plain string: '1899'") (Some "P569") None] 0 0 0.

(** The batch of the failing input of claim C2: a Wikidata-style binding
    whose [qid] is wrapped as [{"value": 5}], then an ordinary entity. *)
Definition c2_batch : list (list (string * pyval)) :=
  [[("qid", PDict [("value", PInt 5)]); ("name", PStr "A")];
   [("qid", PStr "Q23434"); ("name", PStr "Ernest Hemingway")]].

(** Case split on [r = XSD k] for the keys of [DATATYPE_PATTERNS]. *)
Ltac decide_key H :=
  match goal with
  | |- context [String.eqb ?r (XSD ?k)] =>
      let E := fresh "E" in
      destruct (String.eqb_spec r (XSD k)) as [E|E];
      [subst r; try (vm_compute in H; discriminate H); reflexivity | ]
  end.

(** The input of the bare-year scenario. *)
Definition c3_data : list (string * pyval) :=
  [("qid", PStr "Q12345"); ("birthDate", PStr "1899")].

(** An issue on field [f] of type [t] at severity [sev]. *)
Definition is_issue_on (f : string) (t : ValidationType) (sev : ValidationSeverity)
  (i : ValidationIssue) : bool :=
  String.eqb (vi_field i) f && vtype_eqb (vi_type i) t && severity_eqb (vi_severity i) sev.

(** No ['*'] in the local names or Wikidata ids of a class's properties. *)
Definition star_free_props (ps : list PropertyMapping) : bool :=
  forallb (fun pm => negb (has_char "*" (pm_ontology_local pm)) &&
                     negb (has_char "*" (pm_wikidata_id pm))) ps.

(** The fixture's Author class mapping. *)
Definition fixture_author_mapping : ClassMapping :=
  mkClassMapping (LIT "Author") "Author" (WD "Q482980") "Q482980" (Some "Author")
    (Some "http://xmlns.com/foaf/0.1/Person").

(** The entity of the Hemingway scenario. *)
Definition c7_data : list (string * pyval) :=
  [("qid", PStr "Q23434"); ("name", PStr "Ernest Hemingway"); ("birthDate", PStr "1899-07-21")].

(** A mapper whose memo, if any, was built from its own ontology: the
    constructor leaves it empty and [extract_mappings] only stores what it
    has just built. *)
Definition mapper_wf (m : SchemaMapper) : Prop :=
  match schema_info_cache m with
  | None => True
  | Some si => si = build_schema_info (mapper_ontology m)
  end.

(** Everything of a ValidationResult but its [entity_type] and [entity_id]. *)
Definition outcome (r : ValidationResult) :
  bool * list ValidationIssue * nat * nat * nat :=
  (valid r, issues r, error_count r, warning_count r, info_count r).

(* ------------------------------------------------------------------ *)
(** ** services/response_validator.py: validate_wikidata_response *)

(** [value.get("value", value) if isinstance(value, dict) else value] *)
Definition simplify_value (v : pyval) : pyval :=
  match v with
  | PDict d => match dget d "value" with Some x => x | None => v end
  | _ => v
  end.

(** The inner loop of [validate_wikidata_response]: [entity[key] = ...]
    for each item of the binding, into an empty dict. *)
Definition simplify_binding (binding : list (string * pyval)) : list (string * pyval) :=
  fold_left (fun entity kv => dset entity (fst kv) (simplify_value (snd kv))) binding [].

(** [validate_wikidata_response] *)
Definition validate_wikidata_response (m : SchemaMapper) (entity_type : string)
  (bindings : list (list (string * pyval))) (strict : bool) : py_result BatchValidationResult :=
  validate_batch m entity_type (map simplify_binding bindings) strict.

(** A binding in the SPARQL JSON results format: every value is a dict
    whose ["value"] entry is a string. *)
Definition sparql_json_binding (binding : list (string * pyval)) : Prop :=
  forall kv, In kv binding ->
    exists d s, snd kv = PDict d /\ dget d "value" = Some (PStr s).

(* ------------------------------------------------------------------ *)
(** ** Auxiliary predicates of the further properties *)

(** An issue with its severity replaced. *)
Definition with_severity (sev : ValidationSeverity) (i : ValidationIssue) : ValidationIssue :=
  mkIssue (vi_type i) sev (vi_field i) (vi_message i) (vi_expected i) (vi_actual i)
          (vi_wikidata_property i) (vi_ontology_property i).

(** The order INFO < WARNING < ERROR. *)
Definition sev_rank (s : ValidationSeverity) : nat :=
  match s with INFO => 0 | WARNING => 1 | ERROR => 2 end.

(** [i1] is [i2] but for a severity at least as high. *)
Definition at_least_as_severe (i1 i2 : ValidationIssue) : Prop :=
  with_severity ERROR i1 = with_severity ERROR i2 /\
  sev_rank (vi_severity i2) <= sev_rank (vi_severity i1).

(** Issues of type [MISSING_REQUIRED]. *)
Definition is_missing (i : ValidationIssue) : bool := vtype_eqb (vi_type i) MISSING_REQUIRED.

(** Number of issues whose type value is [k]. *)
Definition type_count (k : string) (l : list ValidationIssue) : nat :=
  length (filter (fun i => String.eqb (vtype_value (vi_type i)) k) l).

(** A summary dict that holds, for each issue type value met in [l], its
    number of occurrences, and no other key. *)
Definition summary_exact (sm : list (string * nat)) (l : list ValidationIssue) : Prop :=
  forall k, dget sm k = if Nat.eqb (type_count k l) 0 then None else Some (type_count k l).

(** Every character of [s] satisfies [p]. *)
Fixpoint all_chars (p : ascii -> bool) (s : string) : bool :=
  match s with
  | EmptyString => true
  | String c s' => p c && all_chars p s'
  end.

(** The four-character string [abcd]. *)
Definition str4 (a b c d : ascii) : string := String a (String b (String c (String d EmptyString))).

(** The value of four decimal digits. *)
Definition val4 (a b c d : ascii) : Z :=
  (1000 * digit_val a + 100 * digit_val b + 10 * digit_val c + digit_val d)%Z.


(* ------------------------------------------------------------------ *)
(** ** services/sparql_generator.py: generate_validation_query *)

(** The select variables one [(prop_name, prop_info)] entry adds: none when
    [prop_info.get("wikidata_property")] is empty, [?prop_name] otherwise,
    followed by [?prop_nameLabel] for an ObjectProperty. *)
Definition validation_select_vars (p : string * ExpectedProperty) : list string :=
  let '(prop_name, prop_info) := p in
  if String.eqb (ep_wikidata_property prop_info) "" then []
  else
    let var_name := "?" ++ prop_name in
    if String.eqb (ep_property_type prop_info) "ObjectProperty"
    then [var_name; var_name ++ "Label"] else [var_name].

(** The OPTIONAL line one entry adds, if any. *)
Definition validation_optional (p : string * ExpectedProperty) : list string :=
  let '(prop_name, prop_info) := p in
  let wd_prop := ep_wikidata_property prop_info in
  if String.eqb wd_prop "" then []
  else ["OPTIONAL { ?item wdt:" ++ wd_prop ++ " " ++ ("?" ++ prop_name) ++ " . }"].

(** [generate_validation_query]: the f-string
    [{PREFIXES}\nSELECT {vars}\nWHERE {\n  BIND(wd:{qid} AS ?item)\n  {optionals}\n  SERVICE ...\n}]. *)
Definition generate_validation_query (m : SchemaMapper) (entity_type entity_qid : string)
  : string :=
  let expected_props := get_expected_properties_for_class m entity_type in
  let select_vars := app ["?item"; "?itemLabel"] (flat_map validation_select_vars expected_props) in
  let optionals := flat_map validation_optional expected_props in
  WIKIDATA_PREFIXES ++ nl ++ "SELECT " ++ join " " select_vars ++ nl ++
  "WHERE {" ++ nl ++
  "  BIND(wd:" ++ entity_qid ++ " AS ?item)" ++ nl ++
  "  " ++ join nl (map (fun opt => "  " ++ opt) optionals) ++ nl ++
  LABEL_SERVICE ++ nl ++
  "}".

(* ------------------------------------------------------------------ *)
(** ** An ontology with a property whose local name spells a triple pattern *)

(** The fixture ontology plus one Author datatype property whose IRI ends,
    after its ['#'], with the text [item wdt:P31/wdt:P279*]. *)
Definition star_ontology : Ontology :=
  mkOntology
    (class_rows fixture_ontology)
    (app (property_rows fixture_ontology)
       [mkPropertyRow (LIT "item wdt:P31/wdt:P279*") (WDT "P31") (Some "instance of")
                      (Some (LIT "Author")) (Some (XSD "string")) "DatatypeProperty"])
    (subclass_plus fixture_ontology).

Definition star_mapper : SchemaMapper := mkSchemaMapper star_ontology None.

(** The loop body of [get_expected_properties_for_class]. *)
Definition expected_step (acc : list (string * ExpectedProperty)) (pm : PropertyMapping)
  : list (string * ExpectedProperty) :=
  dset acc (pm_ontology_local pm)
       (mkExpected (pm_wikidata_id pm) (pm_property_type pm) (pm_range pm) (pm_label pm) false).
(* ================================================================== *)
(** * Properties *)

(* ------------------------------------------------------------------ *)
(** ** ValidationResult.add_issue *)

Lemma issues_add_issue (r : ValidationResult) (i : ValidationIssue) :
  issues (add_issue r i) = app (issues r) [i].
Proof. unfold add_issue; destruct (vi_severity i); reflexivity. Qed.

Lemma issues_add_issues (r : ValidationResult) (l : list ValidationIssue) :
  issues (add_issues r l) = app (issues r) l.
Proof.
  unfold add_issues; revert r; induction l as [|i l IH]; intro r; simpl.
  - rewrite app_nil_r; reflexivity.
  - rewrite IH, issues_add_issue, <- app_assoc; reflexivity.
Qed.

Lemma count_sev_app (s : ValidationSeverity) (l1 l2 : list ValidationIssue) :
  count_sev s (app l1 l2) = count_sev s l1 + count_sev s l2.
Proof. unfold count_sev; rewrite filter_app, length_app; reflexivity. Qed.

Lemma add_issue_counts_track (r : ValidationResult) (i : ValidationIssue) :
  counts_track r -> counts_track (add_issue r i).
Proof.
  intros (He & Hw & Hi); unfold counts_track; rewrite issues_add_issue, !count_sev_app.
  unfold add_issue; destruct (vi_severity i) eqn:Hs; simpl;
    unfold count_sev at 2 4 6; simpl; rewrite Hs; simpl; lia.
Qed.

Lemma add_issue_valid (r : ValidationResult) (i : ValidationIssue) :
  valid r = Nat.eqb (error_count r) 0 ->
  valid (add_issue r i) = Nat.eqb (error_count (add_issue r i)) 0.
Proof. intro H; unfold add_issue; destruct (vi_severity i); simpl; auto. Qed.

Lemma add_issues_invariant (r : ValidationResult) (l : list ValidationIssue) :
  valid r = Nat.eqb (error_count r) 0 ->
  valid (add_issues r l) = Nat.eqb (error_count (add_issues r l)) 0.
Proof.
  unfold add_issues; revert r; induction l as [|i l IH]; intros r H; simpl; auto.
  apply IH, add_issue_valid, H.
Qed.

Lemma add_issues_counts_track (r : ValidationResult) (l : list ValidationIssue) :
  counts_track r -> counts_track (add_issues r l).
Proof.
  unfold add_issues; revert r; induction l as [|i l IH]; intros r H; simpl; auto.
  apply IH, add_issue_counts_track, H.
Qed.

(** C1 (counterexample): a [ValidationResult] built with [valid=true], all
    counts zero but a non-empty [issues] list (the constructor accepts one)
    does not satisfy "counts equal the issues by severity", already after
    the empty sequence of [add_issue] calls. *)
Lemma C1_prefilled_counterexample :
  valid prefilled_result = true /\ error_count prefilled_result = 0 /\
  warning_count prefilled_result = 0 /\ info_count prefilled_result = 0 /\
  ~ c1_invariant (add_issues prefilled_result []).
Proof.
  repeat split; try reflexivity.
  intros (_ & He & _); discriminate He.
Qed.

(** C1 (amended): for every [ValidationResult] constructed with
    [valid=true], all counts zero and an empty issues list (as
    [validate_entity] builds it), after any sequence of [add_issue] calls
    [valid == (error_count == 0)] holds and each count equals the number of
    issues of that severity; the validity part holds whatever the initial
    issues list. *)
Theorem C1_add_issue_invariant (r0 : ValidationResult) (l : list ValidationIssue) :
  valid r0 = true -> error_count r0 = 0 -> warning_count r0 = 0 -> info_count r0 = 0 ->
  valid (add_issues r0 l) = Nat.eqb (error_count (add_issues r0 l)) 0 /\
  (issues r0 = [] -> c1_invariant (add_issues r0 l)).
Proof.
  intros Hv He Hw Hi.
  assert (Hval : valid (add_issues r0 l) = Nat.eqb (error_count (add_issues r0 l)) 0).
  { apply add_issues_invariant; rewrite Hv, He; reflexivity. }
  split; [exact Hval|].
  intro Hnil; split; [exact Hval|].
  apply add_issues_counts_track; unfold counts_track; rewrite Hnil, He, Hw, Hi.
  repeat split.
Qed.

Lemma C1_add_issue_invariant_witness :
  valid (mkResult true "Author" None [] 0 0 0) = true /\
  c1_invariant (add_issues (mkResult true "Author" None [] 0 0 0)
                  (issues prefilled_result)).
Proof.
  split; [reflexivity|].
  apply (C1_add_issue_invariant (mkResult true "Author" None [] 0 0 0)
           (issues prefilled_result)); reflexivity.
Defined.

(* ------------------------------------------------------------------ *)
(** ** validate_batch *)

Lemma batch_loop_spec (m : SchemaMapper) (t : string) (s : bool)
  (l : list (list (string * pyval))) (b0 b : BatchValidationResult) :
  batch_loop m t s l b0 = Ok b ->
  exists rs,
    Forall2 (fun d r => validate_entity m t d s = Ok r) l rs /\
    results b = app (results b0) rs /\
    total_entities b = total_entities b0 /\
    valid_entities b + invalid_entities b = valid_entities b0 + invalid_entities b0 + length rs /\
    total_errors b = total_errors b0 + list_sum (map error_count rs) /\
    total_warnings b = total_warnings b0 + list_sum (map warning_count rs).
Proof.
  revert b0; induction l as [|d l IH]; intros b0 H; simpl in H.
  - injection H as <-; exists []; rewrite app_nil_r; simpl; repeat split; auto; lia.
  - destruct (validate_entity m t d s) as [r|e] eqn:Hr; simpl in H; [|discriminate].
    destruct (IH _ H) as (rs & Hf & Hres & Htot & Hvi & Her & Hwa).
    exists (r :: rs); simpl in *; repeat split.
    + constructor; auto.
    + rewrite Hres, <- app_assoc; reflexivity.
    + exact Htot.
    + rewrite Hvi; destruct (valid r); simpl; lia.
    + rewrite Her; simpl; lia.
    + rewrite Hwa; simpl; lia.
Qed.

(** Whenever [validate_batch] returns, its aggregates are consistent:
    [valid_entities + invalid_entities == total_entities == len(results)],
    one result per input entity, and the error and warning totals are the
    sums over the results. *)
Lemma validate_batch_aggregates (m : SchemaMapper) (t : string)
  (l : list (list (string * pyval))) (s : bool) (b : BatchValidationResult) :
  validate_batch m t l s = Ok b ->
  Forall2 (fun d r => validate_entity m t d s = Ok r) l (results b) /\
  valid_entities b + invalid_entities b = total_entities b /\
  total_entities b = length (results b) /\
  total_errors b = list_sum (map error_count (results b)) /\
  total_warnings b = list_sum (map warning_count (results b)).
Proof.
  unfold validate_batch; intro H.
  destruct (batch_loop_spec _ _ _ _ _ _ H) as (rs & Hf & Hres & Htot & Hvi & Her & Hwa).
  simpl in *. rewrite Hres; simpl.
  pose proof (Forall2_length Hf) as Hlen.
  repeat split; auto; lia.
Qed.

(** [validate_entity] raises only while building the result's
    [entity_id]; past that point it always returns. *)
Lemma validate_entity_returns (m : SchemaMapper) (t : string)
  (d : list (string * pyval)) (s : bool) (eid : option string) :
  validate_entity_id_field (extract_entity_id d) = Ok eid ->
  exists r, validate_entity m t d s = Ok r /\ entity_id r = eid.
Proof.
  intro H; unfold validate_entity; rewrite H; simpl.
  destruct (get_class_mapping m t).
  - eexists; split; [reflexivity|].
    set (r0 := mkResult true t eid [] 0 0 0).
    assert (Hk : forall r l, entity_id (add_issues r l) = entity_id r).
    { intros r l; unfold add_issues; revert r; induction l as [|i l IH]; intro r; simpl; auto.
      rewrite IH; unfold add_issue; destruct (vi_severity i); reflexivity. }
    assert (Ha : forall r i, entity_id (add_issue r i) = entity_id r).
    { intros r i; unfold add_issue; destruct (vi_severity i); reflexivity. }
    assert (H1 : forall l r, entity_id (fold_left (check_missing d s) l r) = entity_id r).
    { induction l as [|p l IH]; intro r; simpl; auto.
      rewrite IH; unfold check_missing; destruct (dmem d (fst p)); auto. }
    assert (H2 : forall l r e, entity_id (fold_left (check_field m e s) l r) = entity_id r).
    { induction l as [|[f v] l IH]; intros r e; simpl; auto.
      rewrite IH; unfold check_field; destruct (is_meta_field f); auto.
      destruct (dget e f); [apply Hk|].
      destruct (match translate_from_wikidata m f with
                | Some s0 => negb (s0 =? "")%string | None => false end); auto. }
    rewrite H1, H2; reflexivity.
  - eexists; split; [reflexivity|].
    unfold add_issue; simpl; reflexivity.
Qed.

(** C2 (code_bug): on [c2_batch] [validate_batch] raises pydantic's
    [ValidationError] from the first entity ([_extract_entity_id] returns
    the unconverted [5] for the [str | None] field [entity_id]), so no
    [BatchValidationResult] is returned and the second entity, which
    validates on its own, is never validated. *)
Theorem C2_validate_batch_aborts (m : SchemaMapper) (t : string) (s : bool) :
  validate_batch m t c2_batch s =
    Raise (PydanticValidationError "entity_id: Input should be a valid string") /\
  exists r, validate_entity m t (nth 1 c2_batch []) s = Ok r.
Proof.
  split; [reflexivity|].
  destruct (validate_entity_returns m t (nth 1 c2_batch []) s (Some "Q23434") eq_refl)
    as (r & Hr & _).
  exists r; exact Hr.
Qed.

(* ------------------------------------------------------------------ *)
(** ** validate_entity: shape of the issues list *)

Lemma issues_fold_check_missing (d : list (string * pyval)) (s : bool)
  (ps : list (string * ExpectedProperty)) (r : ValidationResult) :
  issues (fold_left (check_missing d s) ps r) =
  app (issues r) (map (missing_issue s) (filter (fun p => negb (dmem d (fst p))) ps)).
Proof.
  revert r; induction ps as [|p ps IH]; intro r; simpl.
  - rewrite app_nil_r; reflexivity.
  - rewrite IH; unfold check_missing.
    destruct (dmem d (fst p)); simpl; [reflexivity|].
    rewrite issues_add_issue, <- app_assoc; reflexivity.
Qed.

Lemma missing_issue_field (s : bool) (p : string * ExpectedProperty) :
  vi_field (missing_issue s p) = fst p.
Proof. destruct p; reflexivity. Qed.

(** Only the issues about fields other than [f] come from the missing-property
    loop when [f] is a key of the data. *)
Lemma missing_issues_other_fields (d : list (string * pyval)) (s : bool)
  (ps : list (string * ExpectedProperty)) (f : string) :
  dmem d f = true ->
  filter (fun i => String.eqb (vi_field i) f)
         (map (missing_issue s) (filter (fun p => negb (dmem d (fst p))) ps)) = [].
Proof.
  intro Hf; induction ps as [|p ps IH]; simpl; auto.
  destruct (dmem d (fst p)) eqn:Hp; simpl; auto.
  rewrite missing_issue_field.
  destruct (String.eqb_spec (fst p) f) as [<-|]; [congruence|auto].
Qed.

Lemma expected_props_class_mapped (m : SchemaMapper) (t k : string) (info : ExpectedProperty) :
  dget (get_expected_properties_for_class m t) k = Some info ->
  exists cm, get_class_mapping m t = Some cm.
Proof.
  unfold get_expected_properties_for_class; destruct (get_class_mapping m t) as [cm|];
    [eauto | discriminate].
Qed.

Lemma lower_empty (r : string) : contains "date" (lower r) = true -> String.eqb r "" = false.
Proof. destruct r; [discriminate | reflexivity]. Qed.

(** What [_validate_datatype_property] reports on the bare year ["1899"]
    for a range whose name contains "date". *)
Lemma bare_year_datatype_issues (r : string) (wp : option string) :
  contains "date" (lower r) = true ->
  validate_datatype_property "birthDate" (PStr "1899") (Some r) wp =
  if String.eqb r (XSD "date") || String.eqb r (XSD "dateTime") then
    [issue TYPE_MISMATCH WARNING "birthDate" "Value doesn't match expected datatype format"
       (Some (get_datatype_name r)) (Some "str: 1899...") wp None]
  else [].
Proof.
  intro Hc.
  pose proof (lower_empty r Hc) as Hne.
  simpl validate_datatype_property.
  rewrite Hne, Hc.
  replace (validate_date_value "birthDate" (PStr "1899") wp) with (@nil ValidationIssue)
    by reflexivity.
  unfold DATATYPE_PATTERNS, dget.
  decide_key Hc. decide_key Hc. decide_key Hc. decide_key Hc.
  decide_key Hc. decide_key Hc. decide_key Hc.
  repeat match goal with
         | E : ?r <> ?k |- context [String.eqb ?r ?k] =>
             rewrite (proj2 (String.eqb_neq r k) E)
         end.
  reflexivity.
Qed.

(** C3 (counterexample): with the fixture schema ([birthDate] mapped to
    P569 with range xsd:date), validating the bare year ["1899"] as an
    Author yields no [format] WARNING on [birthDate]: the bare year is
    accepted by the date-specific check, and the xsd:date pattern reports a
    [type_mismatch] WARNING instead. *)
Lemma C3_bare_year_counterexample :
  exists res, validate_entity fixture_mapper "Author" c3_data false = Ok res /\
    existsb (is_issue_on "birthDate" FORMAT WARNING) (issues res) = false /\
    existsb (is_issue_on "birthDate" TYPE_MISMATCH WARNING) (issues res) = true.
Proof. eexists; split; [reflexivity | vm_compute; split; reflexivity]. Qed.

(** C3 (amended): for any schema in which [birthDate] is an expected
    DatatypeProperty of Author whose range name contains "date", validating
    [{"qid": "Q12345", "birthDate": "1899"}] as Author (non-strict) succeeds,
    and the issues on field [birthDate] are exactly one [type_mismatch]
    WARNING when the range is xsd:date or xsd:dateTime (the bare year does
    not match their patterns), and none otherwise. In no case is there a
    [format] issue or an ERROR issue on [birthDate]. *)
Theorem C3_bare_year_issues (m : SchemaMapper) (info : ExpectedProperty) (r : string) :
  dget (get_expected_properties_for_class m "Author") "birthDate" = Some info ->
  ep_property_type info = "DatatypeProperty" ->
  ep_range info = Some r ->
  contains "date" (lower r) = true ->
  exists res, validate_entity m "Author" c3_data false = Ok res /\
    filter (fun i => String.eqb (vi_field i) "birthDate") (issues res) =
    (if String.eqb r (XSD "date") || String.eqb r (XSD "dateTime") then
       [issue TYPE_MISMATCH WARNING "birthDate" "Value doesn't match expected datatype format"
          (Some (get_datatype_name r)) (Some "str: 1899...")
          (Some (ep_wikidata_property info)) None]
     else []).
Proof.
  intros Hd Ht Hr Hc.
  destruct (expected_props_class_mapped _ _ _ _ Hd) as [cm Hcm].
  unfold validate_entity.
  replace (validate_entity_id_field (extract_entity_id c3_data)) with
    (Ok (A := option string) (Some "Q12345")) by reflexivity.
  cbn [py_bind]; rewrite Hcm.
  eexists; split; [reflexivity|].
  rewrite issues_fold_check_missing, filter_app,
    missing_issues_other_fields by reflexivity.
  rewrite app_nil_r.
  unfold c3_data; cbn [fold_left]; unfold check_field.
  replace (is_meta_field "qid") with true by reflexivity.
  replace (is_meta_field "birthDate") with false by reflexivity.
  cbv match beta.
  rewrite Hd, issues_add_issues.
  unfold validate_property_value; rewrite Ht, Hr.
  replace ("DatatypeProperty" =? "ObjectProperty")%string with false by reflexivity.
  replace ("DatatypeProperty" =? "DatatypeProperty")%string with true by reflexivity.
  rewrite bare_year_datatype_issues by exact Hc.
  cbv match beta.
  destruct (String.eqb r (XSD "date") || String.eqb r (XSD "dateTime")); reflexivity.
Qed.

Lemma C3_bare_year_issues_witness :
  exists res, validate_entity fixture_mapper "Author" c3_data false = Ok res /\
    filter (fun i => String.eqb (vi_field i) "birthDate") (issues res) =
    [issue TYPE_MISMATCH WARNING "birthDate" "Value doesn't match expected datatype format"
       (Some "date") (Some "str: 1899...") (Some "P569") None].
Proof.
  exact (C3_bare_year_issues fixture_mapper
           (mkExpected "P569" "DatatypeProperty" (Some (XSD "date")) (Some "birth date") false)
           (XSD "date") eq_refl eq_refl eq_refl eq_refl).
Defined.

(* ------------------------------------------------------------------ *)
(** ** C4: requested filters of the author and work queries *)

(** C4 (code bug): the generators test each filter with Python
    truthiness ([if year_start:], [if country_qid:], ...), so a supplied
    [year_start = 0] or [year_end = 0] produces exactly the query text of an
    omitted one, and so does an empty-string QID filter. Concretely the
    query for [year_start = 0] contains no [YEAR(?birthDate)] (resp.
    [YEAR(?publicationDate)]) FILTER, and [country_qid = ""] yields no
    [?author wdt:P27 wd:] triple pattern, while [year_start = 1900] does
    produce its FILTER. *)
Theorem C4_falsy_filters_dropped :
  (forall aq cq mq ys ye l o,
     generate_author_query aq cq mq (Some 0%Z) ye l o = generate_author_query aq cq mq None ye l o /\
     generate_author_query aq cq mq ys (Some 0%Z) l o = generate_author_query aq cq mq ys None l o /\
     generate_author_query aq (Some "") mq ys ye l o = generate_author_query aq None mq ys ye l o /\
     generate_author_query aq cq (Some "") ys ye l o = generate_author_query aq cq None ys ye l o) /\
  (forall wq aq gq ys ye l o,
     generate_work_query wq aq gq (Some 0%Z) ye l o = generate_work_query wq aq gq None ye l o /\
     generate_work_query wq aq gq ys (Some 0%Z) l o = generate_work_query wq aq gq ys None l o /\
     generate_work_query wq (Some "") gq ys ye l o = generate_work_query wq None gq ys ye l o /\
     generate_work_query wq aq (Some "") ys ye l o = generate_work_query wq aq None ys ye l o) /\
  (exists q, generate_author_query None None None (Some 0%Z) None 100 0 = Ok q /\
     contains "YEAR(?birthDate)" q = false) /\
  (exists q, generate_work_query None None None (Some 0%Z) None 100 0 = Ok q /\
     contains "YEAR(?publicationDate)" q = false) /\
  (exists q, generate_author_query None (Some "") None None None 100 0 = Ok q /\
     contains "?author wdt:P27 wd:" q = false) /\
  (exists q, generate_author_query None None None (Some 1900%Z) None 100 0 = Ok q /\
     contains "YEAR(?birthDate) >= 1900" q = true).
Proof.
  split; [intros; repeat split; reflexivity|].
  split; [intros; repeat split; reflexivity|].
  refine (conj _ (conj _ (conj _ _)));
    (eexists; split; [vm_compute; reflexivity | vm_compute; reflexivity]).
Qed.

(* ------------------------------------------------------------------ *)
(** ** Searching the generated query text *)

Lemma has_char_app (c : ascii) (a b : string) :
  has_char c (a ++ b) = has_char c a || has_char c b.
Proof. induction a as [|x a IH]; simpl; [reflexivity|]; rewrite IH, orb_assoc; reflexivity. Qed.

Lemma has_char_join (c : ascii) (sep : string) (l : list string) :
  has_char c sep = false -> (forall s, In s l -> has_char c s = false) ->
  has_char c (join sep l) = false.
Proof.
  intros Hsep; induction l as [|s l IH]; intro Hl; [reflexivity|].
  destruct l as [|s' l].
  - apply Hl; left; reflexivity.
  - change (has_char c (s ++ sep ++ join sep (s' :: l)) = false).
    rewrite !has_char_app, Hsep, (Hl s (or_introl eq_refl)), IH; [reflexivity|].
    intros x Hx; apply Hl; right; exact Hx.
Qed.

Lemma prefix_has_char (c : ascii) (p s : string) :
  String.prefix p s = true -> has_char c p = true -> has_char c s = true.
Proof.
  revert s; induction p as [|x p IH]; intros s Hp Hc; [discriminate|].
  destruct s as [|y s]; [discriminate|].
  simpl in Hp; destruct (ascii_dec x y) as [<-|]; [|discriminate].
  simpl in Hc |- *; apply orb_true_iff in Hc; apply orb_true_iff.
  destruct Hc as [Hc|Hc]; [left; exact Hc | right; exact (IH s Hp Hc)].
Qed.

Lemma contains_has_char (c : ascii) (p s : string) :
  contains p s = true -> has_char c p = true -> has_char c s = true.
Proof.
  intros H Hc; induction s as [|y s IH].
  - destruct p; [discriminate | discriminate].
  - change (String.prefix p (String y s) || contains p s = true) in H.
    apply orb_true_iff in H; destruct H as [H|H].
    + exact (prefix_has_char c p _ H Hc).
    + simpl; rewrite (IH H), orb_true_r; reflexivity.
Qed.

Lemma prefix_app (p a b : string) : String.prefix p a = true -> String.prefix p (a ++ b) = true.
Proof.
  revert a; induction p as [|x p IH]; intros a H; [destruct (a ++ b); reflexivity|].
  destruct a as [|y a]; [discriminate|].
  simpl in H |- *; destruct (ascii_dec x y); [exact (IH a H) | discriminate].
Qed.

Lemma contains_app_l (p a b : string) : contains p a = true -> contains p (a ++ b) = true.
Proof.
  induction a as [|y a IH]; intro H.
  - destruct p; [destruct b; reflexivity | discriminate].
  - change (String.prefix p (String y a) || contains p a = true) in H.
    change (String.prefix p (String y (a ++ b)) || contains p (a ++ b) = true).
    apply orb_true_iff in H; apply orb_true_iff; destruct H as [H|H].
    + left; exact (prefix_app p (String y a) b H).
    + right; exact (IH H).
Qed.

Lemma contains_app_r (p a b : string) : contains p b = true -> contains p (a ++ b) = true.
Proof.
  induction a as [|y a IH]; intro H; [exact H|].
  simpl; rewrite (IH H), orb_true_r; reflexivity.
Qed.

Lemma contains_join (p sep s : string) (l : list string) :
  In s l -> contains p s = true -> contains p (join sep l) = true.
Proof.
  induction l as [|x l IH]; intros Hin Hs; [destruct Hin|].
  destruct l as [|x' l].
  - destruct Hin as [<-|[]]; exact Hs.
  - change (contains p (x ++ sep ++ join sep (x' :: l)) = true).
    destruct Hin as [<-|Hin].
    + apply contains_app_l; exact Hs.
    + apply contains_app_r, contains_app_r, IH; assumption.
Qed.

Lemma has_char_str_int (z : Z) : has_char "*" (str_int z) = false.
Proof.
  unfold str_int, NilEmpty.string_of_int.
  assert (Hu : forall u, has_char "*" (NilEmpty.string_of_uint u) = false)
    by (induction u; simpl; auto).
  destruct (Z.to_int z); simpl; auto.
Qed.

Lemma star_free_props_in (ps : list PropertyMapping) (pm : PropertyMapping) :
  star_free_props ps = true -> In pm ps ->
  has_char "*" (pm_ontology_local pm) = false /\ has_char "*" (pm_wikidata_id pm) = false.
Proof.
  unfold star_free_props; rewrite forallb_forall; intros H Hin.
  specialize (H pm Hin); apply andb_true_iff in H as [H1 H2].
  apply negb_true_iff in H1, H2; split; assumption.
Qed.

(* ------------------------------------------------------------------ *)
(** ** C5: [generate_entity_query] *)


(* ------------------------------------------------------------------ *)
(** ** C6: lookups by any of the four identifiers *)

Lemma find_unique {A : Type} (f : A -> bool) (l : list A) (a : A) :
  In a l -> f a = true -> (forall b, In b l -> f b = true -> b = a) ->
  find f l = Some a.
Proof.
  induction l as [|x l IH]; intros Hin Ha Hu; [destruct Hin|]; simpl.
  destruct (f x) eqn:Hx.
  - rewrite (Hu x (or_introl eq_refl) Hx); reflexivity.
  - destruct Hin as [<-|Hin]; [congruence|].
    apply IH; auto; intros b Hb; apply Hu; right; exact Hb.
Qed.

Lemma find_none_all {A : Type} (f : A -> bool) (l : list A) :
  (forall b, In b l -> f b = false) -> find f l = None.
Proof.
  induction l as [|x l IH]; intro H; [reflexivity|]; simpl.
  rewrite (H x (or_introl eq_refl)); apply IH; intros b Hb; apply H; right; exact Hb.
Qed.

Lemma in4_spec (x a b c d : string) : in4 x a b c d = true <-> In x [a; b; c; d].
Proof.
  unfold in4; rewrite !orb_true_iff, !String.eqb_eq; simpl.
  split; intro H; [|intuition congruence].
  destruct H as [[[H|H]|H]|H]; subst; tauto.
Qed.

(** C6: for every extracted class (resp. property) mapping [cm] whose four
    identifiers are shared with no other mapping (a mapping sharing one of
    them is [cm] itself), [get_class_mapping] (resp. [get_property_mapping])
    on any of the four returns [cm]; an identifier matching no mapping
    gives [None] (the lookups return an option, they cannot raise). *)
Theorem C6_lookup_by_any_id (m : SchemaMapper) :
  (forall cm x, In cm (class_mappings (schema m)) ->
     (forall cm', In cm' (class_mappings (schema m)) ->
        forall y, In y (class_ids cm) -> In y (class_ids cm') -> cm' = cm) ->
     In x (class_ids cm) -> get_class_mapping m x = Some cm) /\
  (forall pm x, In pm (property_mappings (schema m)) ->
     (forall pm', In pm' (property_mappings (schema m)) ->
        forall y, In y (property_ids pm) -> In y (property_ids pm') -> pm' = pm) ->
     In x (property_ids pm) -> get_property_mapping m x = Some pm) /\
  (forall x, (forall cm, In cm (class_mappings (schema m)) -> ~ In x (class_ids cm)) ->
     get_class_mapping m x = None) /\
  (forall x, (forall pm, In pm (property_mappings (schema m)) -> ~ In x (property_ids pm)) ->
     get_property_mapping m x = None).
Proof.
  split; [|split; [|split]].
  - intros cm x Hin Hu Hx; unfold get_class_mapping; apply find_unique; auto.
    + apply in4_spec; unfold class_ids in Hx; simpl in Hx |- *; tauto.
    + intros b Hb Hf; apply in4_spec in Hf; apply (Hu b Hb x Hx).
      unfold class_ids; simpl in Hf |- *; tauto.
  - intros pm x Hin Hu Hx; unfold get_property_mapping; apply find_unique; auto.
    + apply in4_spec; unfold property_ids in Hx; simpl in Hx |- *; tauto.
    + intros b Hb Hf; apply in4_spec in Hf; apply (Hu b Hb x Hx).
      unfold property_ids; simpl in Hf |- *; tauto.
  - intros x H; unfold get_class_mapping; apply find_none_all.
    intros b Hb; destruct (in4 _ _ _ _ _) eqn:E; [|reflexivity].
    exfalso; apply in4_spec in E; apply (H b Hb); unfold class_ids; simpl in E |- *; tauto.
  - intros x H; unfold get_property_mapping; apply find_none_all.
    intros b Hb; destruct (in4 _ _ _ _ _) eqn:E; [|reflexivity].
    exfalso; apply in4_spec in E; apply (H b Hb); unfold property_ids; simpl in E |- *; tauto.
Qed.

Lemma C6_lookup_by_any_id_witness :
  get_class_mapping fixture_mapper (WD "Q482980") = Some fixture_author_mapping /\
  get_class_mapping fixture_mapper "Bogus" = None.
Proof.
  destruct (C6_lookup_by_any_id fixture_mapper) as [Hc [_ [Hn _]]]; split.
  - apply Hc.
    + vm_compute; left; reflexivity.
    + intros cm' Hin y Hy Hy'; vm_compute in Hin.
      destruct Hin as [<-|[<-|[]]]; [reflexivity|exfalso].
      vm_compute in Hy, Hy'.
      destruct Hy as [<-|[<-|[<-|[<-|[]]]]];
        repeat destruct Hy' as [Hy'|Hy']; try discriminate Hy'; contradiction.
    + vm_compute; tauto.
  - apply Hn; intros cm Hin Hx; vm_compute in Hin.
    destruct Hin as [<-|[<-|[]]]; vm_compute in Hx;
      repeat destruct Hx as [Hx|Hx]; try discriminate Hx; contradiction.
Defined.

(* ------------------------------------------------------------------ *)
(** ** C7: [required] is always false *)

Lemma dget_dset {V} (d : list (string * V)) (k k' : string) (v : V) :
  dget (dset d k v) k' = if String.eqb k' k then Some v else dget d k'.
Proof.
  induction d as [|[k0 v0] d IH]; simpl.
  - reflexivity.
  - destruct (String.eqb_spec k k0) as [<-|Hk]; simpl.
    + destruct (String.eqb k' k); reflexivity.
    + rewrite IH; destruct (String.eqb_spec k' k0) as [->|];
        [rewrite (proj2 (String.eqb_neq k0 k) (not_eq_sym Hk)); reflexivity | reflexivity].
Qed.


(* ------------------------------------------------------------------ *)
(** ** C8: memoisation of [extract_mappings] *)

Lemma extract_mappings_memo (m : SchemaMapper) (b : bool) :
  schema (snd (extract_mappings m b)) = fst (extract_mappings m b).
Proof.
  unfold schema, extract_mappings.
  destruct (schema_info_cache m) as [si|] eqn:Hc; [destruct b|]; simpl;
    try rewrite Hc; reflexivity.
Qed.

Lemma extract_mappings_wf (m : SchemaMapper) (b : bool) :
  mapper_wf m -> mapper_wf (snd (extract_mappings m b)).
Proof.
  unfold mapper_wf, extract_mappings; intro H.
  destruct (schema_info_cache m) as [si|] eqn:Hc; [destruct b|]; simpl;
    try rewrite Hc; auto.
Qed.

Lemma fresh_mapper_wf (o : Ontology) : mapper_wf (mkSchemaMapper o None).
Proof. exact I. Qed.

(** C8: after a first call [extract_mappings m b], a second call without
    [force_refresh] returns the same SchemaInfo and leaves the mapper as it
    was; a call with [force_refresh = true] (over the same ontology) returns
    an equal SchemaInfo, hence the same mappings, counts and four lookup
    indexes; a forced call on [m] itself agrees with an unforced one. This
    holds for every mapper whose memo was built from its ontology, which
    [fresh_mapper_wf] and [extract_mappings_wf] show of every mapper the
    program constructs. *)
Theorem C8_extract_mappings_idempotent (m : SchemaMapper) (b : bool) :
  mapper_wf m ->
  fst (extract_mappings (snd (extract_mappings m b)) false) = fst (extract_mappings m b) /\
  snd (extract_mappings (snd (extract_mappings m b)) false) = snd (extract_mappings m b) /\
  fst (extract_mappings (snd (extract_mappings m b)) true) = fst (extract_mappings m b) /\
  fst (extract_mappings m true) = fst (extract_mappings m false).
Proof.
  unfold mapper_wf, extract_mappings; intro H.
  destruct (schema_info_cache m) as [si|] eqn:Hc; [destruct b|]; simpl;
    try rewrite Hc; subst; repeat split.
Qed.

Lemma C8_extract_mappings_idempotent_witness :
  fst (extract_mappings (snd (extract_mappings fixture_mapper false)) false) =
    fst (extract_mappings fixture_mapper false) /\
  snd (extract_mappings (snd (extract_mappings fixture_mapper false)) false) =
    snd (extract_mappings fixture_mapper false) /\
  fst (extract_mappings (snd (extract_mappings fixture_mapper false)) true) =
    fst (extract_mappings fixture_mapper false) /\
  fst (extract_mappings fixture_mapper true) = fst (extract_mappings fixture_mapper false).
Proof. apply (C8_extract_mappings_idempotent fixture_mapper false); exact I. Defined.

(* ------------------------------------------------------------------ *)
(** ** C9: failures inside [validate_rdf] *)

(** C9 (modelled from the spec: the SHACL result model is not in the
    repository's models). For any parser, SHACL engine and report reader,
    [validate_rdf] returns a result; when parsing the data fails with error
    text [e], that result has [conforms = false] and exactly one violation,
    of VIOLATION severity, with message ["Failed to parse RDF data: " ++ e];
    when parsing succeeds but the SHACL engine raises with text [e], the
    result has [conforms = false] and exactly one VIOLATION-severity
    violation with message ["SHACL validation error: " ++ e]. *)
Theorem C9_validate_rdf_failures (G : Type) (parse : string -> string -> string + G)
  (shapes : G) (engine : G -> G -> bool -> bool -> string + (bool * G))
  (report : G -> list SHACLValidationViolation) (filt : list string -> G)
  (names : list string) (data fmt : string) (ts : option (list string))
  (inf ab : bool) (ms : nat) :
  let rdf_format := match dget format_map fmt with Some f => f | None => fmt end in
  let shapes_to_use := match ts with Some (_ :: _ as l) => filt l | _ => shapes end in
  let res := validate_rdf G parse shapes engine report filt names data fmt ts inf ab ms in
  (forall e, parse data rdf_format = inl e ->
     conforms res = false /\
     violations res = [mkViolation "data_graph" None None "parsing" None OTHER SH_VIOLATION
                         ("Failed to parse RDF data: " ++ e)] /\
     violation_count res = 1 /\ sh_warning_count res = 0 /\ sh_info_count res = 0) /\
  (forall g e, parse data rdf_format = inr g -> engine g shapes_to_use inf ab = inl e ->
     conforms res = false /\
     violations res = [mkViolation "validation" None None "shacl_engine" None OTHER SH_VIOLATION
                         ("SHACL validation error: " ++ e)] /\
     violation_count res = 1 /\ sh_warning_count res = 0 /\ sh_info_count res = 0).
Proof.
  intros rdf_format shapes_to_use res; split.
  - intros e He; subst res; unfold validate_rdf; fold rdf_format; rewrite He.
    repeat split.
  - intros g e Hg He; subst res; unfold validate_rdf; fold rdf_format; rewrite Hg.
    fold shapes_to_use; rewrite He; repeat split.
Qed.

Lemma C9_validate_rdf_failures_witness :
  violations (validate_rdf unit (fun _ _ => inl "bad token") tt (fun _ _ _ _ => inr (true, tt))
                (fun _ => []) (fun _ => tt) [] "@@" "turtle" None false false 0) =
    [mkViolation "data_graph" None None "parsing" None OTHER SH_VIOLATION
       "Failed to parse RDF data: bad token"] /\
  violations (validate_rdf unit (fun _ _ => inr tt) tt (fun _ _ _ _ => inl "engine crashed")
                (fun _ => []) (fun _ => tt) [] "<a> <b> <c> ." "turtle" None false false 0) =
    [mkViolation "validation" None None "shacl_engine" None OTHER SH_VIOLATION
       "SHACL validation error: engine crashed"].
Proof.
  split.
  - apply (proj1 (C9_validate_rdf_failures unit (fun _ _ => inl "bad token") tt
             (fun _ _ _ _ => inr (true, tt)) (fun _ => []) (fun _ => tt) []
             "@@" "turtle" None false false 0) "bad token" eq_refl).
  - apply (proj2 (C9_validate_rdf_failures unit (fun _ _ => inr tt) tt
             (fun _ _ _ _ => inl "engine crashed") (fun _ => []) (fun _ => tt) []
             "<a> <b> <c> ." "turtle" None false false 0) tt "engine crashed" eq_refl eq_refl).
Defined.

(* ------------------------------------------------------------------ *)
(** ** C10: fields resolved through [translate_from_wikidata] *)

Lemma dget_skip {V} (d1 d2 : list (string * V)) (f k : string) (v : V) :
  k <> f -> dget (app d1 ((f, v) :: d2)) k = dget (app d1 d2) k.
Proof.
  intro Hk; induction d1 as [|[k0 v0] d1 IH]; simpl.
  - rewrite (proj2 (String.eqb_neq k f) Hk); reflexivity.
  - rewrite IH; reflexivity.
Qed.

Lemma dmem_skip {V} (d1 d2 : list (string * V)) (f k : string) (v : V) :
  k <> f -> dmem (app d1 ((f, v) :: d2)) k = dmem (app d1 d2) k.
Proof. intro Hk; unfold dmem; rewrite dget_skip by exact Hk; reflexivity. Qed.

Lemma dget_absent {V} (d : list (string * V)) (f : string) :
  ~ In f (map fst d) -> dget d f = None.
Proof.
  induction d as [|[k v] d IH]; intro H; simpl; [reflexivity|].
  simpl in H; destruct (String.eqb_spec f k) as [->|]; [tauto|].
  apply IH; tauto.
Qed.

Lemma dget_none_keys {V} (d : list (string * V)) (f : string) (p : string * V) :
  dget d f = None -> In p d -> fst p <> f.
Proof.
  induction d as [|[k v] d IH]; intros H Hin; [destruct Hin|].
  simpl in H; destruct (String.eqb_spec f k) as [|Hk]; [discriminate|].
  destruct Hin as [<-|Hin]; [simpl; auto | exact (IH H Hin)].
Qed.

Lemma find_ext_in {A : Type} (f g : A -> bool) (l : list A) :
  (forall x, In x l -> f x = g x) -> find f l = find g l.
Proof.
  induction l as [|x l IH]; intro H; simpl; [reflexivity|].
  rewrite (H x (or_introl eq_refl)), IH; [reflexivity|].
  intros y Hy; apply H; right; exact Hy.
Qed.

Lemma extract_entity_id_skip (d1 d2 : list (string * pyval)) (f : string) (v : pyval) :
  (forall k, In k ["qid"; "id"; "uri"; "item"] -> k <> f) ->
  extract_entity_id (app d1 ((f, v) :: d2)) = extract_entity_id (app d1 d2).
Proof.
  intro Hk; unfold extract_entity_id.
  rewrite (find_ext_in _ (fun k => dmem (app d1 d2) k)) by
    (intros x Hx; apply dmem_skip, Hk, Hx).
  destruct (find _ _) as [k|] eqn:Hf; [|reflexivity].
  apply find_some in Hf as [Hin _].
  rewrite dget_skip by exact (Hk k Hin); reflexivity.
Qed.

Lemma fold_check_field_skip (m : SchemaMapper) (E : list (string * ExpectedProperty)) (s : bool)
  (d1 d2 : list (string * pyval)) (f ws : string) (v : pyval) (r : ValidationResult) :
  is_meta_field f = false -> dget E f = None ->
  translate_from_wikidata m f = Some ws -> ws <> "" ->
  fold_left (check_field m E s) (app d1 ((f, v) :: d2)) r =
  fold_left (check_field m E s) (app d1 d2) r.
Proof.
  intros Hm He Ht Hw.
  rewrite !fold_left_app; cbn [fold_left].
  replace (check_field m E s (fold_left (check_field m E s) d1 r) (f, v))
    with (fold_left (check_field m E s) d1 r); [reflexivity|].
  unfold check_field; rewrite Hm, He, Ht.
  rewrite (proj2 (String.eqb_neq ws "") Hw); reflexivity.
Qed.

Lemma fold_check_missing_ext (D D' : list (string * pyval)) (s : bool)
  (E : list (string * ExpectedProperty)) (r : ValidationResult) :
  (forall p, In p E -> dmem D (fst p) = dmem D' (fst p)) ->
  fold_left (check_missing D s) E r = fold_left (check_missing D' s) E r.
Proof.
  revert r; induction E as [|p E IH]; intros r H; cbn [fold_left]; [reflexivity|].
  replace (check_missing D' s r p) with (check_missing D s r p)
    by (unfold check_missing; rewrite (H p (or_introl eq_refl)); reflexivity).
  apply IH; intros q Hq; apply H; right; exact Hq.
Qed.

Lemma add_issue_outcome (r1 r2 : ValidationResult) (i : ValidationIssue) :
  outcome r1 = outcome r2 -> outcome (add_issue r1 i) = outcome (add_issue r2 i).
Proof.
  destruct r1, r2; unfold outcome; simpl; intro H; injection H as -> -> -> -> ->.
  unfold add_issue; simpl; destruct (vi_severity i); reflexivity.
Qed.

Lemma add_issues_outcome (r1 r2 : ValidationResult) (l : list ValidationIssue) :
  outcome r1 = outcome r2 -> outcome (add_issues r1 l) = outcome (add_issues r2 l).
Proof.
  unfold add_issues; revert r1 r2; induction l as [|i l IH]; intros r1 r2 H;
    [exact H | apply IH, add_issue_outcome, H].
Qed.

Lemma fold_check_field_outcome (m : SchemaMapper) (E : list (string * ExpectedProperty))
  (s : bool) (d : list (string * pyval)) (r1 r2 : ValidationResult) :
  outcome r1 = outcome r2 ->
  outcome (fold_left (check_field m E s) d r1) = outcome (fold_left (check_field m E s) d r2).
Proof.
  revert r1 r2; induction d as [|[k v] d IH]; intros r1 r2 H; cbn [fold_left]; [exact H|].
  apply IH; unfold check_field.
  destruct (is_meta_field k); [exact H|].
  destruct (dget E k); [apply add_issues_outcome, H|].
  destruct (match translate_from_wikidata m k with Some s => _ | None => false end);
    [exact H | apply add_issue_outcome, H].
Qed.

Lemma fold_check_missing_outcome (D : list (string * pyval)) (s : bool)
  (E : list (string * ExpectedProperty)) (r1 r2 : ValidationResult) :
  outcome r1 = outcome r2 ->
  outcome (fold_left (check_missing D s) E r1) = outcome (fold_left (check_missing D s) E r2).
Proof.
  revert r1 r2; induction E as [|p E IH]; intros r1 r2 H; cbn [fold_left]; [exact H|].
  apply IH; unfold check_missing; destruct (dmem D (fst p)); [exact H | apply add_issue_outcome, H].
Qed.

(** Dropping the key ["item"] from an entity whose id validates leaves an
    id that validates. *)
Lemma entity_id_without_item (d1 d2 : list (string * pyval)) (v : pyval) (eid : option string) :
  ~ In "item" (map fst (app d1 d2)) ->
  validate_entity_id_field (extract_entity_id (app d1 (("item", v) :: d2))) = Ok eid ->
  exists eid', validate_entity_id_field (extract_entity_id (app d1 d2)) = Ok eid'.
Proof.
  intros Hn He; unfold extract_entity_id in *; cbn [find] in *.
  rewrite <- !(dmem_skip d1 d2 "item" "qid" v), <- !(dmem_skip d1 d2 "item" "id" v),
    <- !(dmem_skip d1 d2 "item" "uri" v) by discriminate.
  replace (dmem (app d1 d2) "item") with false
    by (unfold dmem; rewrite dget_absent by exact Hn; reflexivity).
  destruct (dmem _ "qid"); cbv match beta in He |- *.
  { rewrite <- (dget_skip d1 d2 "item" "qid" v) by discriminate; eexists; exact He. }
  destruct (dmem _ "id"); cbv match beta in He |- *.
  { rewrite <- (dget_skip d1 d2 "item" "id" v) by discriminate; eexists; exact He. }
  destruct (dmem _ "uri"); cbv match beta in He |- *.
  { rewrite <- (dget_skip d1 d2 "item" "uri" v) by discriminate; eexists; exact He. }
  eexists; reflexivity.
Qed.

(** C10: in [validate_entity], a non-meta field [f] that is not an
    expected property of the class but resolves through
    [translate_from_wikidata] to a non-empty name is accepted without any
    check: whenever the entity validates, the entity with [f] removed also
    validates, with the same issues, counters and validity, so no issue is
    emitted for [f] and its value [v] is never inspected. When [f] is not
    ["item"] (a key [_extract_entity_id] reads) the two calls are equal
    outright, whatever [v] is. *)
Theorem C10_resolved_field_unchecked (m : SchemaMapper) (t : string) (s : bool)
  (d1 d2 : list (string * pyval)) (f ws : string) (v : pyval) :
  is_meta_field f = false ->
  ~ In f (map fst (app d1 d2)) ->
  dget (get_expected_properties_for_class m t) f = None ->
  translate_from_wikidata m f = Some ws -> ws <> "" ->
  (forall r, validate_entity m t (app d1 ((f, v) :: d2)) s = Ok r ->
     exists r', validate_entity m t (app d1 d2) s = Ok r' /\ outcome r = outcome r') /\
  (f <> "item" -> validate_entity m t (app d1 ((f, v) :: d2)) s = validate_entity m t (app d1 d2) s).
Proof.
  intros Hm Hn He Ht Hw.
  assert (Hkeys : forall p, In p (get_expected_properties_for_class m t) ->
            dmem (app d1 ((f, v) :: d2)) (fst p) = dmem (app d1 d2) (fst p))
    by (intros p Hp; apply dmem_skip; exact (dget_none_keys _ _ _ He Hp)).
  assert (Part2 : f <> "item" ->
            validate_entity m t (app d1 ((f, v) :: d2)) s = validate_entity m t (app d1 d2) s).
  { intro Hi; unfold validate_entity.
    rewrite extract_entity_id_skip.
    2: { intros k Hk E; subst k.
         destruct Hk as [<-|[<-|[<-|[<-|[]]]]]; try (vm_compute in Hm; discriminate Hm).
         exact (Hi eq_refl). }
    destruct (validate_entity_id_field _) as [eid|e]; cbn [py_bind]; [|reflexivity].
    destruct (get_class_mapping m t); [|reflexivity].
    rewrite (fold_check_field_skip _ _ _ _ _ _ ws) by assumption.
    rewrite (fold_check_missing_ext _ (app d1 d2)) by exact Hkeys.
    reflexivity. }
  split; [|exact Part2].
  intros r Hr.
  destruct (String.eqb_spec f "item") as [->|Hi].
  2: { exists r; split; [rewrite <- (Part2 Hi); exact Hr | reflexivity]. }
  unfold validate_entity in Hr |- *.
  destruct (validate_entity_id_field (extract_entity_id (app d1 (("item", v) :: d2))))
    as [eid|e] eqn:Ee; cbn [py_bind] in Hr; [|discriminate Hr].
  destruct (entity_id_without_item d1 d2 v eid Hn Ee) as [eid' Ee'].
  rewrite Ee'; cbn [py_bind].
  destruct (get_class_mapping m t).
  - injection Hr as <-; eexists; split; [reflexivity|].
    rewrite (fold_check_field_skip _ _ _ _ _ _ ws) by assumption.
    rewrite (fold_check_missing_ext _ (app d1 d2)) by exact Hkeys.
    apply fold_check_missing_outcome, fold_check_field_outcome; reflexivity.
  - injection Hr as <-; eexists; split; reflexivity.
Qed.

Lemma C10_resolved_field_unchecked_witness :
  validate_entity fixture_mapper "Author"
    [("qid", PStr "Q23434"); ("P569", PInt 42); ("name", PStr "Ernest Hemingway")] false =
  validate_entity fixture_mapper "Author"
    [("qid", PStr "Q23434"); ("name", PStr "Ernest Hemingway")] false.
Proof.
  refine (proj2 (C10_resolved_field_unchecked fixture_mapper "Author" false
            [("qid", PStr "Q23434")] [("name", PStr "Ernest Hemingway")] "P569" "birthDate"
            (PInt 42) eq_refl _ eq_refl eq_refl _) _).
  - simpl; intuition discriminate.
  - discriminate.
  - discriminate.
Defined.

(* ------------------------------------------------------------------ *)
(** ** validate_entity: consistency of its results *)

Lemma add_issue_c1 (r : ValidationResult) (i : ValidationIssue) :
  c1_invariant r -> c1_invariant (add_issue r i).
Proof. intros [Hv Hc]; split; [apply add_issue_valid, Hv | apply add_issue_counts_track, Hc]. Qed.

Lemma add_issues_c1 (r : ValidationResult) (l : list ValidationIssue) :
  c1_invariant r -> c1_invariant (add_issues r l).
Proof. intros [Hv Hc]; split; [apply add_issues_invariant, Hv | apply add_issues_counts_track, Hc]. Qed.

Lemma fold_check_field_c1 (m : SchemaMapper) (E : list (string * ExpectedProperty)) (s : bool)
  (d : list (string * pyval)) (r : ValidationResult) :
  c1_invariant r -> c1_invariant (fold_left (check_field m E s) d r).
Proof.
  revert r; induction d as [|[k v] d IH]; intros r H; cbn [fold_left]; [exact H|].
  apply IH; unfold check_field.
  destruct (is_meta_field k); [exact H|].
  destruct (dget E k); [apply add_issues_c1, H|].
  destruct (match translate_from_wikidata m k with Some s => _ | None => false end);
    [exact H | apply add_issue_c1, H].
Qed.

Lemma fold_check_missing_c1 (D : list (string * pyval)) (s : bool)
  (E : list (string * ExpectedProperty)) (r : ValidationResult) :
  c1_invariant r -> c1_invariant (fold_left (check_missing D s) E r).
Proof.
  revert r; induction E as [|p E IH]; intros r H; cbn [fold_left]; [exact H|].
  apply IH; unfold check_missing; destruct (dmem D (fst p)); [exact H | apply add_issue_c1, H].
Qed.

Lemma validate_entity_ok_c1 (m : SchemaMapper) (t : string) (d : list (string * pyval))
  (s : bool) (r : ValidationResult) :
  validate_entity m t d s = Ok r -> c1_invariant r.
Proof.
  unfold validate_entity.
  destruct (validate_entity_id_field (extract_entity_id d)) as [eid|e]; cbn [py_bind];
    [|discriminate].
  assert (H0 : c1_invariant (mkResult true t eid [] 0 0 0)) by (repeat split).
  destruct (get_class_mapping m t); intro H; injection H as <-.
  - apply fold_check_missing_c1, fold_check_field_c1, H0.
  - apply add_issue_c1, H0.
Qed.

(** X1: every result [validate_entity] returns is consistent: [valid] is
    [error_count == 0], and [error_count], [warning_count] and
    [info_count] are the numbers of issues of each severity. *)
Theorem validate_entity_consistent (m : SchemaMapper) (t : string)
  (d : list (string * pyval)) (s : bool) (r : ValidationResult) :
  validate_entity m t d s = Ok r ->
  valid r = Nat.eqb (error_count r) 0 /\
  error_count r = count_sev ERROR (issues r) /\
  warning_count r = count_sev WARNING (issues r) /\
  info_count r = count_sev INFO (issues r).
Proof. intro H; exact (validate_entity_ok_c1 m t d s r H). Qed.

Lemma validate_entity_consistent_witness :
  exists r, validate_entity fixture_mapper "Author" c3_data false = Ok r /\
  valid r = Nat.eqb (error_count r) 0 /\
  error_count r = count_sev ERROR (issues r) /\
  warning_count r = count_sev WARNING (issues r) /\
  info_count r = count_sev INFO (issues r).
Proof.
  destruct (validate_entity fixture_mapper "Author" c3_data false) as [r|e] eqn:E.
  - exists r; split; [reflexivity|].
    exact (validate_entity_consistent fixture_mapper "Author" c3_data false r E).
  - vm_compute in E; discriminate E.
Defined.

(* ------------------------------------------------------------------ *)
(** ** validate_entity: strict mode *)

Lemma at_least_as_severe_refl (l : list ValidationIssue) : Forall2 at_least_as_severe l l.
Proof. induction l; constructor; [split; [reflexivity | lia] | assumption]. Qed.

Lemma fold_check_field_strict (m : SchemaMapper) (E : list (string * ExpectedProperty))
  (d : list (string * pyval)) (r1 r2 : ValidationResult) :
  Forall2 at_least_as_severe (issues r1) (issues r2) ->
  Forall2 at_least_as_severe (issues (fold_left (check_field m E true) d r1))
                             (issues (fold_left (check_field m E false) d r2)).
Proof.
  revert r1 r2; induction d as [|[k v] d IH]; intros r1 r2 H; cbn [fold_left]; [exact H|].
  apply IH; unfold check_field.
  destruct (is_meta_field k); [exact H|].
  destruct (dget E k) as [p|].
  - rewrite !issues_add_issues; apply Forall2_app; [exact H|].
    replace (validate_property_value k v p true) with (validate_property_value k v p false)
      by reflexivity.
    apply at_least_as_severe_refl.
  - destruct (match translate_from_wikidata m k with Some s => _ | None => false end);
      [exact H|].
    rewrite !issues_add_issue; apply Forall2_app; [exact H|].
    constructor; [split; [reflexivity | cbn; lia] | constructor].
Qed.

Lemma fold_check_missing_strict (D : list (string * pyval)) (E : list (string * ExpectedProperty))
  (r1 r2 : ValidationResult) :
  Forall2 at_least_as_severe (issues r1) (issues r2) ->
  Forall2 at_least_as_severe (issues (fold_left (check_missing D true) E r1))
                             (issues (fold_left (check_missing D false) E r2)).
Proof.
  revert r1 r2; induction E as [|p E IH]; intros r1 r2 H; cbn [fold_left]; [exact H|].
  apply IH; unfold check_missing; destruct (dmem D (fst p)); [exact H|].
  rewrite !issues_add_issue; apply Forall2_app; [exact H|].
  constructor; [|constructor].
  destruct p as [n info]; unfold missing_issue; destruct (ep_required info);
    (split; [reflexivity | cbn; lia]).
Qed.

Lemma validate_entity_strict_issues (m : SchemaMapper) (t : string) (d : list (string * pyval))
  (rs rl : ValidationResult) :
  validate_entity m t d true = Ok rs -> validate_entity m t d false = Ok rl ->
  Forall2 at_least_as_severe (issues rs) (issues rl).
Proof.
  unfold validate_entity.
  destruct (validate_entity_id_field (extract_entity_id d)) as [eid|e]; cbn [py_bind];
    [|discriminate].
  destruct (get_class_mapping m t); intros H1 H2; injection H1 as <-; injection H2 as <-.
  - apply fold_check_missing_strict, fold_check_field_strict; constructor.
  - apply at_least_as_severe_refl.
Qed.

Lemma count_error_stricter (l1 l2 : list ValidationIssue) :
  Forall2 at_least_as_severe l1 l2 -> count_sev ERROR l2 <= count_sev ERROR l1.
Proof.
  induction 1 as [|x y l1 l2 [_ Hr] _ IH]; [reflexivity|].
  unfold count_sev in *; simpl.
  destruct (vi_severity x), (vi_severity y); simpl in *; lia.
Qed.

(** X2: [strict] only raises severities. On the same entity, strict and
    non-strict validation both raise the same exception or both return;
    then the strict issues are the non-strict ones in the same order, equal
    but for a severity at least as high, so strict mode never has fewer
    errors, and an entity valid in strict mode is valid in non-strict mode. *)
Theorem validate_entity_strict_mode (m : SchemaMapper) (t : string) (d : list (string * pyval)) :
  match validate_entity m t d true, validate_entity m t d false with
  | Ok rs, Ok rl =>
      Forall2 at_least_as_severe (issues rs) (issues rl) /\
      error_count rl <= error_count rs /\ (valid rs = true -> valid rl = true)
  | Raise e1, Raise e2 => e1 = e2
  | _, _ => False
  end.
Proof.
  destruct (validate_entity_id_field (extract_entity_id d)) as [eid|e] eqn:Hid.
  - destruct (validate_entity_returns m t d true eid Hid) as (rs & Hs & _).
    destruct (validate_entity_returns m t d false eid Hid) as (rl & Hl & _).
    rewrite Hs, Hl.
    pose proof (validate_entity_strict_issues m t d rs rl Hs Hl) as HF.
    destruct (validate_entity_ok_c1 m t d true rs Hs) as [Hvs [Hes _]].
    destruct (validate_entity_ok_c1 m t d false rl Hl) as [Hvl [Hel _]].
    pose proof (count_error_stricter _ _ HF) as Hc.
    split; [exact HF|]; split; [lia|].
    rewrite Hvs, Hvl; intro Hz; apply Nat.eqb_eq in Hz; apply Nat.eqb_eq; lia.
  - unfold validate_entity; rewrite Hid; reflexivity.
Qed.

(* ------------------------------------------------------------------ *)
(** ** validate_entity: the missing-property issues *)

Lemma check_entity_ref_no_missing (f : string) (v : pyval) (wp : option string) :
  forallb (fun i => negb (is_missing i)) (check_entity_ref f v wp) = true.
Proof.
  unfold check_entity_ref; destruct (truthy v); [|reflexivity].
  destruct (_ || _); reflexivity.
Qed.

Lemma object_property_no_missing (f : string) (wp : option string) :
  forall v, forallb (fun i => negb (is_missing i)) (validate_object_property f v wp) = true.
Proof.
  fix IH 1; intros [| b | z | s | l | d]; cbn [validate_object_property];
    try apply check_entity_ref_no_missing; try reflexivity.
  revert l; fix IHl 1; intros [|x l]; [reflexivity|].
  cbn [flat_map]; rewrite forallb_app, IH, IHl; reflexivity.
Qed.

Lemma datatype_scalar_no_missing (f : string) (rng wp : option string) (v : pyval) :
  match v with PList _ => False | _ => True end ->
  forallb (fun i => negb (is_missing i)) (validate_datatype_property f v rng wp) = true.
Proof.
  intro Hv.
  assert (Hr : forall (a : pyval),
    forallb (fun i => negb (is_missing i))
      ((match rng with
        | Some r =>
            match dget DATATYPE_PATTERNS r with
            | Some pattern =>
                if negb (String.eqb r "") && negb (pattern (py_str a)) then
                  [issue TYPE_MISMATCH WARNING f
                     "Value doesn't match expected datatype format"
                     (Some (get_datatype_name r))
                     (Some (type_name a ++ ": " ++ substring 0 50 (py_str a) ++ "...")%string)
                     wp None]
                else []
            | None => []
            end
        | None => []
        end) ++
       (match rng with
        | Some r =>
            if String.eqb r "" then []
            else if contains "date" (lower r) then validate_date_value f a wp
            else if contains "integer" (lower r) then validate_integer_value f a wp
            else []
        | None => []
        end))%list = true).
  { intro a; rewrite forallb_app; apply andb_true_intro; split.
    - destruct rng as [r|]; [|reflexivity].
      destruct (dget DATATYPE_PATTERNS r); [|reflexivity].
      destruct (_ && _); reflexivity.
    - destruct rng as [r|]; [|reflexivity].
      destruct (String.eqb r ""); [reflexivity|].
      destruct (contains "date" (lower r)).
      + unfold validate_date_value; destruct (_ && _); reflexivity.
      + destruct (contains "integer" (lower r)); [|reflexivity].
        unfold validate_integer_value.
        destruct a; try reflexivity; destruct (int_parses _); reflexivity. }
  destruct v; [..| contradiction |]; apply Hr.
Qed.

Lemma datatype_property_no_missing (f : string) (rng wp : option string) :
  forall v, forallb (fun i => negb (is_missing i)) (validate_datatype_property f v rng wp) = true.
Proof.
  fix IH 1; intros [| b | z | s | l | d];
    try (apply datatype_scalar_no_missing; exact I).
  cbn [validate_datatype_property].
  revert l; fix IHl 1; intros [|x l]; [reflexivity|].
  cbn [flat_map]; rewrite forallb_app, IH, IHl; reflexivity.
Qed.

Lemma property_value_no_missing (f : string) (v : pyval) (p : ExpectedProperty) (s : bool) :
  forallb (fun i => negb (is_missing i)) (validate_property_value f v p s) = true.
Proof.
  unfold validate_property_value; destruct v; try reflexivity;
    (destruct (String.eqb _ "ObjectProperty");
     [apply object_property_no_missing
     | destruct (String.eqb _ "DatatypeProperty");
       [apply datatype_property_no_missing | reflexivity]]).
Qed.

Lemma filter_none {A} (P : A -> bool) (l : list A) :
  forallb (fun x => negb (P x)) l = true -> filter P l = [].
Proof.
  induction l as [|x l IH]; simpl; [reflexivity|].
  intro H; apply andb_prop in H as [Hx Hl]; destruct (P x); [discriminate|]; apply IH, Hl.
Qed.

Lemma fold_check_field_missing (m : SchemaMapper) (E : list (string * ExpectedProperty)) (s : bool)
  (d : list (string * pyval)) (r : ValidationResult) :
  filter is_missing (issues (fold_left (check_field m E s) d r)) = filter is_missing (issues r).
Proof.
  revert r; induction d as [|[k v] d IH]; intro r; cbn [fold_left]; [reflexivity|].
  rewrite IH; unfold check_field.
  destruct (is_meta_field k); [reflexivity|].
  destruct (dget E k) as [p|].
  - rewrite issues_add_issues, filter_app, (filter_none _ _ (property_value_no_missing _ _ _ _)).
    apply app_nil_r.
  - destruct (match translate_from_wikidata m k with Some s => _ | None => false end);
      [reflexivity|].
    rewrite issues_add_issue, filter_app; apply app_nil_r.
Qed.

Lemma filter_missing_issues (s : bool) (ps : list (string * ExpectedProperty)) :
  filter is_missing (map (missing_issue s) ps) = map (missing_issue s) ps.
Proof.
  induction ps as [|[n info] ps IH]; simpl; [reflexivity|].
  rewrite IH; unfold missing_issue; destruct (ep_required info); reflexivity.
Qed.

(** X3: the [MISSING_REQUIRED] issues of a result of [validate_entity]
    are exactly, in order, one per expected property of the entity type
    whose name is not a key of the data, as built by the missing-property
    loop; no other check emits that issue type. *)
Theorem validate_entity_missing_issues (m : SchemaMapper) (t : string)
  (d : list (string * pyval)) (s : bool) (r : ValidationResult) :
  validate_entity m t d s = Ok r ->
  filter is_missing (issues r) =
  map (missing_issue s)
      (filter (fun p => negb (dmem d (fst p))) (get_expected_properties_for_class m t)).
Proof.
  unfold validate_entity.
  destruct (validate_entity_id_field (extract_entity_id d)) as [eid|e]; cbn [py_bind];
    [|discriminate].
  destruct (get_class_mapping m t) eqn:Hc; intro H; injection H as <-.
  - rewrite issues_fold_check_missing, filter_app, fold_check_field_missing,
      filter_missing_issues; reflexivity.
  - unfold get_expected_properties_for_class; rewrite Hc; reflexivity.
Qed.

Lemma validate_entity_missing_issues_witness :
  exists r, validate_entity fixture_mapper "Author" c3_data true = Ok r /\
  filter is_missing (issues r) =
  map (missing_issue true)
      (filter (fun p => negb (dmem c3_data (fst p)))
              (get_expected_properties_for_class fixture_mapper "Author")).
Proof.
  destruct (validate_entity fixture_mapper "Author" c3_data true) as [r|e] eqn:E.
  - exists r; split; [reflexivity|].
    exact (validate_entity_missing_issues fixture_mapper "Author" c3_data true r E).
  - vm_compute in E; discriminate E.
Defined.

(* ------------------------------------------------------------------ *)
(** ** validate_batch: the issue-type summary *)

Lemma type_count_app (k : string) (l1 l2 : list ValidationIssue) :
  type_count k (app l1 l2) = type_count k l1 + type_count k l2.
Proof. unfold type_count; rewrite filter_app, length_app; reflexivity. Qed.

Lemma bump_summary_exact (sm : list (string * nat)) (l : list ValidationIssue) (i : ValidationIssue) :
  summary_exact sm l -> summary_exact (bump_summary sm i) (app l [i]).
Proof.
  unfold summary_exact, bump_summary; intros H k.
  rewrite dget_dset, type_count_app.
  destruct (String.eqb_spec k (vtype_value (vi_type i))) as [->|Hk].
  - rewrite H.
    replace (type_count (vtype_value (vi_type i)) [i]) with 1
      by (unfold type_count; simpl; rewrite String.eqb_refl; reflexivity).
    destruct (type_count (vtype_value (vi_type i)) l); simpl; f_equal; lia.
  - replace (type_count k [i]) with 0
      by (unfold type_count; simpl;
          replace (String.eqb (vtype_value (vi_type i)) k) with false
            by (symmetry; apply String.eqb_neq; congruence); reflexivity).
    rewrite H, Nat.add_0_r; reflexivity.
Qed.

Lemma fold_bump_summary_exact (sm : list (string * nat)) (l l' : list ValidationIssue) :
  summary_exact sm l -> summary_exact (fold_left bump_summary l' sm) (app l l').
Proof.
  revert sm l; induction l' as [|i l' IH]; intros sm l H; cbn [fold_left].
  - rewrite app_nil_r; exact H.
  - replace (app l (i :: l')) with (app (app l [i]) l') by (rewrite <- app_assoc; reflexivity).
    apply IH, bump_summary_exact, H.
Qed.

Lemma batch_loop_summary (m : SchemaMapper) (t : string) (s : bool)
  (l : list (list (string * pyval))) (b0 b : BatchValidationResult) :
  batch_loop m t s l b0 = Ok b ->
  summary_exact (summary b0) (flat_map issues (results b0)) ->
  summary_exact (summary b) (flat_map issues (results b)).
Proof.
  revert b0; induction l as [|d l IH]; intros b0 H Hs; simpl in H.
  - injection H as <-; exact Hs.
  - destruct (validate_entity m t d s) as [r|e]; simpl in H; [|discriminate].
    apply (IH _ H); simpl.
    rewrite flat_map_app; simpl; rewrite app_nil_r.
    apply fold_bump_summary_exact, Hs.
Qed.

(** X4: whenever [validate_batch] returns, its [summary] maps each issue
    type value met in the results to the number of issues of that type
    over all results, and has no other key. *)
Theorem validate_batch_summary (m : SchemaMapper) (t : string)
  (l : list (list (string * pyval))) (s : bool) (b : BatchValidationResult) :
  validate_batch m t l s = Ok b ->
  forall k, dget (summary b) k =
    let n := type_count k (flat_map issues (results b)) in
    if Nat.eqb n 0 then None else Some n.
Proof.
  intro H; apply (batch_loop_summary m t s l _ b H).
  intro k; reflexivity.
Qed.

Lemma validate_batch_summary_witness :
  exists b, validate_batch fixture_mapper "Author" [c3_data; c7_data] false = Ok b /\
  forall k, dget (summary b) k =
    let n := type_count k (flat_map issues (results b)) in
    if Nat.eqb n 0 then None else Some n.
Proof.
  destruct (validate_batch fixture_mapper "Author" [c3_data; c7_data] false) as [b|e] eqn:E.
  - exists b; split; [reflexivity|].
    exact (validate_batch_summary fixture_mapper "Author" [c3_data; c7_data] false b E).
  - vm_compute in E; discriminate E.
Defined.

(* ------------------------------------------------------------------ *)
(** ** validate_wikidata_response *)

Lemma batch_loop_returns (m : SchemaMapper) (t : string) (s : bool)
  (l : list (list (string * pyval))) (b0 : BatchValidationResult) :
  (forall d, In d l -> exists eid, validate_entity_id_field (extract_entity_id d) = Ok eid) ->
  exists b, batch_loop m t s l b0 = Ok b.
Proof.
  revert b0; induction l as [|d l IH]; intros b0 H; simpl; [eauto|].
  destruct (H d (or_introl eq_refl)) as [eid Hid].
  destruct (validate_entity_returns m t d s eid Hid) as (r & Hr & _).
  rewrite Hr; simpl; apply IH; intros d' Hd'; apply H; right; exact Hd'.
Qed.

Lemma dget_simplify_binding (bd : list (string * pyval)) (k : string) (v : pyval) :
  dget (simplify_binding bd) k = Some v ->
  exists kv, In kv bd /\ v = simplify_value (snd kv).
Proof.
  unfold simplify_binding.
  assert (G : forall acc, dget (fold_left (fun entity kv =>
                 dset entity (fst kv) (simplify_value (snd kv))) bd acc) k = Some v ->
              dget acc k = Some v \/ exists kv, In kv bd /\ v = simplify_value (snd kv)).
  { induction bd as [|kv bd IH]; intros acc H; cbn [fold_left] in H; [left; exact H|].
    destruct (IH _ H) as [H1|(kv' & Hin & ->)]; [|right; exists kv'; split; [right|]; auto].
    rewrite dget_dset in H1.
    destruct (String.eqb k (fst kv)); [|left; exact H1].
    injection H1 as <-; right; exists kv; split; [left|]; auto. }
  intro H; destruct (G [] H) as [H1|H1]; [discriminate H1 | exact H1].
Qed.

Lemma simplified_entity_id (bd : list (string * pyval)) :
  sparql_json_binding bd ->
  exists eid, validate_entity_id_field (extract_entity_id (simplify_binding bd)) = Ok eid.
Proof.
  intro Hb; unfold extract_entity_id.
  destruct (find _ _) as [k|]; [|exists None; reflexivity].
  destruct (dget (simplify_binding bd) k) as [v|] eqn:Hv; [|exists None; reflexivity].
  destruct (dget_simplify_binding bd k v Hv) as (kv & Hin & ->).
  destruct (Hb kv Hin) as (d & s & Hd & Hs).
  rewrite Hd; simpl; rewrite Hs; simpl; eexists; reflexivity.
Qed.

Lemma Forall2_map_inv {A B C} (R : B -> C -> Prop) (f : A -> B) (l1 : list A) (l2 : list C) :
  Forall2 R (map f l1) l2 -> Forall2 (fun a c => R (f a) c) l1 l2.
Proof.
  revert l2; induction l1 as [|a l1 IH]; intros l2 H; inversion H; subst; constructor; auto.
Qed.

(** X5: on bindings in the SPARQL JSON results format (each value a dict
    with a string ["value"]), [validate_wikidata_response] never raises:
    it returns one result per binding, each the validation of the binding
    with every value replaced by its ["value"], with consistent totals. *)
Theorem validate_wikidata_response_returns (m : SchemaMapper) (t : string)
  (bindings : list (list (string * pyval))) (s : bool) :
  Forall sparql_json_binding bindings ->
  exists b, validate_wikidata_response m t bindings s = Ok b /\
    Forall2 (fun bd r => validate_entity m t (simplify_binding bd) s = Ok r) bindings (results b) /\
    valid_entities b + invalid_entities b = total_entities b /\
    total_entities b = length bindings.
Proof.
  intro Hf; unfold validate_wikidata_response.
  destruct (batch_loop_returns m t s (map simplify_binding bindings)
              (mkBatch (length (map simplify_binding bindings)) 0 0 [] 0 0 [])) as [b Hb].
  { intros d Hd; apply in_map_iff in Hd as (bd & <- & Hin).
    apply simplified_entity_id; rewrite Forall_forall in Hf; apply Hf, Hin. }
  exists b; split; [exact Hb|].
  destruct (validate_batch_aggregates m t _ s b Hb) as (HF & Hv & Ht & _ & _).
  split; [|split; [exact Hv|]].
  - exact (Forall2_map_inv _ _ _ _ HF).
  - apply Forall2_length in HF; rewrite length_map in HF; lia.
Qed.

Lemma validate_wikidata_response_returns_witness :
  exists b, validate_wikidata_response fixture_mapper "Author"
    [[("qid", PDict [("type", PStr "literal"); ("value", PStr "Q23434")]);
      ("birthDate", PDict [("type", PStr "literal"); ("value", PStr "1899-07-21")])]] false = Ok b /\
    Forall2 (fun bd r => validate_entity fixture_mapper "Author" (simplify_binding bd) false = Ok r)
      [[("qid", PDict [("type", PStr "literal"); ("value", PStr "Q23434")]);
        ("birthDate", PDict [("type", PStr "literal"); ("value", PStr "1899-07-21")])]] (results b) /\
    valid_entities b + invalid_entities b = total_entities b /\ total_entities b = 1.
Proof.
  apply (validate_wikidata_response_returns fixture_mapper "Author"
    [[("qid", PDict [("type", PStr "literal"); ("value", PStr "Q23434")]);
      ("birthDate", PDict [("type", PStr "literal"); ("value", PStr "1899-07-21")])]] false).
  repeat constructor.
  intros kv Hin; simpl in Hin.
  destruct Hin as [<-|[<-|[]]]; eexists; eexists; split; reflexivity.
Defined.

(* ------------------------------------------------------------------ *)
(** ** _validate_integer_value and _validate_date_value *)

Lemma str_app_nil_r (s : string) : (s ++ "")%string = s.
Proof. induction s as [|c s IH]; simpl; [reflexivity | rewrite IH; reflexivity]. Qed.

Lemma str_app_assoc (a b c : string) : (a ++ (b ++ c))%string = ((a ++ b) ++ c)%string.
Proof. induction a as [|x a IH]; simpl; [reflexivity | rewrite IH; reflexivity]. Qed.

Lemma rev_str_app (a b : string) : rev_str (a ++ b) = (rev_str b ++ rev_str a)%string.
Proof.
  induction a as [|c a IH]; simpl; [rewrite str_app_nil_r; reflexivity|].
  rewrite IH, str_app_assoc; reflexivity.
Qed.

Lemma rev_str_involutive (s : string) : rev_str (rev_str s) = s.
Proof. induction s as [|c s IH]; simpl; [reflexivity | rewrite rev_str_app, IH; reflexivity]. Qed.

Lemma all_chars_app (p : ascii -> bool) (a b : string) :
  all_chars p (a ++ b) = all_chars p a && all_chars p b.
Proof. induction a as [|c a IH]; simpl; [reflexivity | rewrite IH, andb_assoc; reflexivity]. Qed.

Lemma all_chars_rev_str (p : ascii -> bool) (s : string) :
  all_chars p (rev_str s) = all_chars p s.
Proof.
  induction s as [|c s IH]; simpl; [reflexivity|].
  rewrite all_chars_app, IH; simpl; rewrite andb_true_r, andb_comm; reflexivity.
Qed.

Lemma lstrip_no_space (s : string) :
  all_chars (fun c => negb (py_space c)) s = true -> lstrip s = s.
Proof.
  destruct s as [|c s]; simpl; [reflexivity|].
  destruct (py_space c); [discriminate | reflexivity].
Qed.

Lemma strip_no_space (s : string) :
  all_chars (fun c => negb (py_space c)) s = true -> strip s = s.
Proof.
  intro H; unfold strip; rewrite (lstrip_no_space s H), lstrip_no_space;
    [apply rev_str_involutive | rewrite all_chars_rev_str; exact H].
Qed.

Lemma string_of_uint_digits (u : Decimal.uint) :
  digits_underscores (NilEmpty.string_of_uint u) = true /\
  all_chars (fun c => negb (py_space c)) (NilEmpty.string_of_uint u) = true.
Proof. induction u; simpl; auto. Qed.

Lemma count_digits_uint (u : Decimal.uint) :
  count_digits (NilEmpty.string_of_uint u) = String.length (NilEmpty.string_of_uint u).
Proof. induction u; simpl; auto. Qed.

Lemma int_parses_uint (u : Decimal.uint) :
  u <> Decimal.Nil ->
  int_parses (NilEmpty.string_of_uint u) =
    Nat.leb (String.length (NilEmpty.string_of_uint u)) MAX_STR_DIGITS /\
  int_parses (String "-" (NilEmpty.string_of_uint u)) =
    Nat.leb (String.length (NilEmpty.string_of_uint u)) MAX_STR_DIGITS.
Proof.
  intro Hu; destruct (string_of_uint_digits u) as [Hd Hs].
  pose proof (count_digits_uint u) as Hc.
  unfold int_parses.
  rewrite (strip_no_space _ Hs), (strip_no_space (String "-" _)) by (simpl; exact Hs).
  destruct u; [contradiction | ..]; simpl NilEmpty.string_of_uint in *;
    cbn -[digits_underscores count_digits String.length MAX_STR_DIGITS];
    rewrite Hd, Hc; split; reflexivity.
Qed.

Lemma int_parses_str_int (z : Z) :
  int_parses (str_int z) = Nat.leb (int_digits z) MAX_STR_DIGITS.
Proof.
  unfold int_digits, str_int; destruct z as [|p|p]; [reflexivity | ..]; simpl Z.abs;
    simpl Z.to_int; unfold NilEmpty.string_of_int.
  - exact (proj1 (int_parses_uint _ (DecimalPos.Unsigned.to_uint_nonnil p))).
  - exact (proj2 (int_parses_uint _ (DecimalPos.Unsigned.to_uint_nonnil p))).
Qed.

(** X6: [_validate_integer_value] accepts [str(n)] exactly when [n] has at
    most [MAX_STR_DIGITS] (4300) digits: the decimal text of such an
    integer is never reported, and a longer one, which [int()] refuses,
    gets the TYPE_MISMATCH error. *)
Theorem validate_integer_value_str_int (f : string) (z : Z) (wp : option string) :
  validate_integer_value f (PStr (str_int z)) wp = [] <->
  (int_digits z <= MAX_STR_DIGITS)%nat.
Proof.
  unfold validate_integer_value; cbn [py_str py_fmt].
  rewrite int_parses_str_int.
  destruct (Nat.leb_spec (int_digits z) MAX_STR_DIGITS) as [H|H];
    split; intro E; try reflexivity; try lia; discriminate E.
Qed.

Lemma digit_val_range (c : ascii) : is_digit c = true -> (0 <= digit_val c <= 9)%Z.
Proof.
  unfold is_digit, digit_val; intro H; apply andb_prop in H as [H1 H2].
  apply Nat.leb_le in H1, H2; lia.
Qed.

Lemma date_parsed_dash (ps : list ((string -> bool) * date_format)) (s : string) :
  startswith s "-" = true -> existsb (fun p => fst p s) ps = true -> date_parsed ps s = true.
Proof.
  intro Hs; induction ps as [|[re fmt] ps IH]; simpl; [discriminate|].
  destruct (re s); simpl; [rewrite Hs; reflexivity | exact IH].
Qed.

(** X7: [_validate_date_value] on a year with a minus sign, ["-dddd"]
    (the Wikidata form of a year BCE), never warns: it matches the gYear
    pattern and the code accepts any match that starts with ["-"] without
    calling [strptime]. *)
Theorem validate_date_value_bce_year (f : string) (a b c d : ascii) (wp : option string) :
  is_digit a = true -> is_digit b = true -> is_digit c = true -> is_digit d = true ->
  validate_date_value f (PStr (String "-" (str4 a b c d))) wp = [].
Proof.
  intros Ha Hb Hc Hd.
  unfold validate_date_value; cbn [py_str py_fmt].
  rewrite date_parsed_dash; [reflexivity | reflexivity|].
  unfold date_patterns; cbn [existsb fst].
  replace (re_gyear (String "-" (str4 a b c d))) with true; [rewrite !orb_true_r; reflexivity|].
  unfold re_gyear, opt_minus, str4; cbn -[is_digit].
  rewrite Ha, Hb, Hc, Hd; reflexivity.
Qed.

Lemma validate_date_value_bce_year_witness :
  is_digit "0" = true /\ is_digit "4" = true /\ is_digit "3" = true /\ is_digit "1" = true /\
  validate_date_value "birthDate" (PStr (String "-" (str4 "0" "4" "3" "1"))) None = [].
Proof.
  refine (conj eq_refl (conj eq_refl (conj eq_refl (conj eq_refl _)))).
  apply validate_date_value_bce_year; reflexivity.
Defined.

Lemma str4_patterns (a b c d : ascii) :
  is_digit a = true -> is_digit b = true -> is_digit c = true -> is_digit d = true ->
  re_date (str4 a b c d) = false /\ re_year_month (str4 a b c d) = false /\
  re_gyear (str4 a b c d) = true /\ startswith (str4 a b c d) "-" = false /\
  strptime_ok FMT_Y (str4 a b c d) = date_ok (val4 a b c d) 1 1.
Proof.
  intros Ha Hb Hc Hd; unfold str4.
  unfold re_date, re_year_month, re_gyear, opt_minus, chr, digits_n, obind.
  rewrite Ha, Hb, Hc, Hd.
  split; [reflexivity|]; split; [reflexivity|]; split.
  - destruct (Ascii.eqb_spec a "-") as [->|]; [discriminate Ha|].
    rewrite Ha, Hb, Hc, Hd; reflexivity.
  - split.
    + unfold startswith; cbn [String.prefix]; destruct (ascii_dec "-" a) as [<-|]; [discriminate | reflexivity].
    + unfold strptime_ok, p_format, p_Y, p_seq, p_digit, p_ret.
      rewrite Ha; cbn [flat_map fst snd app]; rewrite Hb; cbn [flat_map fst snd app];
        rewrite Hc; cbn [flat_map fst snd app]; rewrite Hd; cbn [flat_map fst snd app map].
      reflexivity.
Qed.

(** X8: [_validate_date_value] on a four-digit year ["dddd"] warns
    exactly when it is ["0000"]: only the gYear pattern matches, and
    [strptime(value, "%Y")] succeeds on every year from 1 to 9999. *)
Theorem validate_date_value_year (f : string) (a b c d : ascii) (wp : option string) :
  is_digit a = true -> is_digit b = true -> is_digit c = true -> is_digit d = true ->
  (validate_date_value f (PStr (str4 a b c d)) wp = [] <-> val4 a b c d <> 0%Z).
Proof.
  intros Ha Hb Hc Hd.
  pose proof (digit_val_range a Ha); pose proof (digit_val_range b Hb);
  pose proof (digit_val_range c Hc); pose proof (digit_val_range d Hd).
  destruct (str4_patterns a b c d Ha Hb Hc Hd) as (P1 & P2 & P3 & P4 & P5).
  assert (Hv : (0 <= val4 a b c d <= 9999)%Z) by (unfold val4; lia).
  unfold validate_date_value; cbn [py_str py_fmt].
  unfold date_patterns; cbn [date_parsed]; rewrite P1, P2, P3, P4, P5.
  replace (String.eqb (str4 a b c d) "") with false by reflexivity.
  unfold date_ok, days_in_month.
  destruct (Z.eqb_spec (val4 a b c d) 0) as [E|E].
  - rewrite E; cbn; split; [discriminate | intro F; exfalso; apply F; reflexivity].
  - rewrite (proj2 (Z.leb_le 1 (val4 a b c d))), (proj2 (Z.leb_le (val4 a b c d) 9999))
      by lia.
    cbn; split; [intros _; exact E | reflexivity].
Qed.

Lemma validate_date_value_year_witness :
  is_digit "0" = true /\
  (validate_date_value "birthDate" (PStr (str4 "0" "0" "0" "0")) None = [] <->
   val4 "0" "0" "0" "0" <> 0%Z).
Proof.
  refine (conj eq_refl _).
  apply validate_date_value_year; reflexivity.
Defined.

(* ------------------------------------------------------------------ *)
(** ** SchemaMapper: identifiers *)

Lemma after_last_app (c : ascii) (p x : string) :
  has_char c x = false -> after_last c (p ++ String c x) = x.
Proof.
  intro Hx; induction p as [|y p IH]; simpl.
  - rewrite Hx, Ascii.eqb_refl; reflexivity.
  - rewrite has_char_app; simpl; rewrite Ascii.eqb_refl, orb_true_r; exact IH.
Qed.

(** X9: [_extract_local_name] returns the text after the last ['#'] of a
    URI, and the text after the last ['/'] of a URI without ['#']. *)
Theorem extract_local_name_last_segment (p x : string) :
  has_char "#" x = false ->
  extract_local_name (p ++ String "#" x) = x /\
  (has_char "#" p = false -> has_char "/" x = false ->
   extract_local_name (p ++ String "/" x) = x).
Proof.
  intro Hx; unfold extract_local_name; split.
  - rewrite has_char_app; simpl; rewrite orb_true_r.
    apply after_last_app, Hx.
  - intros Hp Hs; rewrite has_char_app, Hp; simpl; rewrite Hx.
    apply after_last_app, Hs.
Qed.

Lemma extract_local_name_last_segment_witness :
  has_char "#" "Author" = false /\
  extract_local_name ("http://literature-explorer.org/ontology" ++ String "#" "Author") = "Author" /\
  (has_char "#" "http://schema.org" = false -> has_char "/" "Person" = false ->
   extract_local_name ("http://schema.org" ++ String "/" "Person") = "Person").
Proof.
  refine (conj eq_refl _).
  destruct (extract_local_name_last_segment "http://literature-explorer.org/ontology" "Author"
              eq_refl) as [H1 _].
  destruct (extract_local_name_last_segment "http://schema.org" "Person" eq_refl) as [_ H2].
  exact (conj H1 H2).
Defined.

Lemma span_digits_all (ds : string) :
  all_chars is_digit ds = true -> span_digits ds = (ds, EmptyString).
Proof.
  induction ds as [|c ds IH]; simpl; [reflexivity|].
  intro H; apply andb_prop in H as [Hc Hds]; rewrite Hc, (IH Hds); reflexivity.
Qed.

Lemma span_digits_suffix (L : ascii) (a b d r : string) :
  is_digit L = false -> span_digits (a ++ String L b) = (d, r) ->
  exists q, r = (q ++ String L b)%string.
Proof.
  intro HL; revert d; induction a as [|y a IH]; intros d H; simpl in H.
  - rewrite HL in H; injection H as _ <-; exists EmptyString; reflexivity.
  - destruct (is_digit y).
    + destruct (span_digits (a ++ String L b)) as [d' r'] eqn:E.
      injection H as _ <-; exact (IH d' eq_refl).
    + injection H as _ <-; exists (String y a); reflexivity.
Qed.

Lemma letter_digits_not_before (L : ascii) (p ds : string) :
  is_digit L = false -> ds <> EmptyString -> p <> EmptyString ->
  letter_digits_end_at L (p ++ String L ds) = None.
Proof.
  intros HL Hds Hp; destruct p as [|x p]; [contradiction|]; simpl.
  destruct (Ascii.eqb x L); [|reflexivity].
  destruct (span_digits (p ++ String L ds)) as [d r] eqn:E.
  destruct (span_digits_suffix L p ds d r HL E) as [q ->].
  unfold dollar.
  replace (String.eqb (q ++ String L ds) "") with false
    by (destruct q; reflexivity).
  replace (String.eqb (q ++ String L ds) nl) with false.
  - rewrite andb_false_r; reflexivity.
  - symmetry; apply String.eqb_neq; intro E'.
    unfold nl in E'; destruct q as [|z q]; simpl in E'.
    + injection E' as _ E'; contradiction.
    + injection E' as _ E'; destruct q; discriminate E'.
Qed.

Lemma search_letter_digits_suffix (L : ascii) (p ds : string) :
  is_digit L = false -> ds <> EmptyString -> all_chars is_digit ds = true ->
  search_letter_digits_end L (p ++ String L ds) = Some (String L ds).
Proof.
  intros HL Hne Hds; induction p as [|x p IH].
  - simpl; unfold letter_digits_end_at; rewrite Ascii.eqb_refl, (span_digits_all ds Hds).
    replace (String.eqb ds "") with false by (destruct ds; [contradiction | reflexivity]).
    reflexivity.
  - pose proof (letter_digits_not_before L (String x p) ds HL Hne ltac:(discriminate)) as H.
    change (String x p ++ String L ds)%string with (String x (p ++ String L ds)) in H |- *.
    change (search_letter_digits_end L (String x (p ++ String L ds))) with
      (match letter_digits_end_at L (String x (p ++ String L ds)) with
       | Some m => Some m
       | None => search_letter_digits_end L (p ++ String L ds)
       end).
    rewrite H; exact IH.
Qed.

(** X10: [_extract_wikidata_id] and [_extract_wikidata_property_id]
    return the final ["Q"] or ["P"] followed by digits of any URI that
    ends with one, whatever precedes it, e.g. the QID of a Wikidata entity
    URI and the PID of a [wdt:] property URI. *)
Theorem extract_wikidata_ids_suffix (p ds : string) :
  ds <> EmptyString -> all_chars is_digit ds = true ->
  extract_wikidata_id (p ++ String "Q" ds) = String "Q" ds /\
  extract_wikidata_property_id (p ++ String "P" ds) = String "P" ds.
Proof.
  intros Hne Hds; unfold extract_wikidata_id, extract_wikidata_property_id.
  rewrite !search_letter_digits_suffix by (reflexivity || assumption).
  split; reflexivity.
Qed.

Lemma extract_wikidata_ids_suffix_witness :
  "23434" <> EmptyString /\ all_chars is_digit "23434" = true /\
  extract_wikidata_id ("http://www.wikidata.org/entity/" ++ String "Q" "23434") = "Q23434" /\
  extract_wikidata_property_id ("http://www.wikidata.org/prop/direct/" ++ String "P" "23434")
    = "P23434".
Proof.
  assert (Hne : "23434" <> EmptyString) by discriminate.
  split; [exact Hne|]; split; [reflexivity|]; split.
  - exact (proj1 (extract_wikidata_ids_suffix "http://www.wikidata.org/entity/" "23434"
                    Hne eq_refl)).
  - exact (proj2 (extract_wikidata_ids_suffix "http://www.wikidata.org/prop/direct/" "23434"
                    Hne eq_refl)).
Defined.

(* ------------------------------------------------------------------ *)
(** ** SchemaMapper: translations and expected properties *)

Lemma nodup_app_disjoint {A} (l1 l2 : list A) (x : A) :
  NoDup (app l1 l2) -> In x l1 -> ~ In x l2.
Proof.
  induction l1 as [|y l1 IH]; intros H Hx; [destruct Hx|].
  inversion H as [|? ? Hy Hn]; subst.
  destruct Hx as [<-|Hx]; [intro H2; apply Hy, in_or_app; right; exact H2 | exact (IH Hn Hx)].
Qed.

Lemma nodup_flat_map_same {A B} (g : A -> list B) (l : list A) (a b : A) (x : B) :
  NoDup (flat_map g l) -> In a l -> In b l -> In x (g a) -> In x (g b) -> a = b.
Proof.
  induction l as [|y l IH]; intros H Ha Hb Hxa Hxb; [destruct Ha|].
  simpl in H; pose proof (NoDup_app_remove_l _ _ H) as H'.
  destruct Ha as [<-|Ha], Hb as [<-|Hb]; auto.
  - exfalso; apply (nodup_app_disjoint _ _ x H Hxa), in_flat_map; eauto.
  - exfalso; apply (nodup_app_disjoint _ _ x H Hxb), in_flat_map; eauto.
Qed.

Lemma class_lookup_unique (m : SchemaMapper) (cm : ClassMapping) (x : string) :
  NoDup (flat_map class_ids (class_mappings (schema m))) ->
  In cm (class_mappings (schema m)) -> In x (class_ids cm) ->
  get_class_mapping m x = Some cm.
Proof.
  intros Hn Hin Hx; unfold get_class_mapping.
  apply find_unique; [exact Hin | apply in4_spec, Hx|].
  intros b Hb Hf; apply in4_spec in Hf.
  exact (nodup_flat_map_same class_ids _ b cm x Hn Hb Hin Hf Hx).
Qed.

Lemma property_lookup_unique (m : SchemaMapper) (pm : PropertyMapping) (x : string) :
  NoDup (flat_map property_ids (property_mappings (schema m))) ->
  In pm (property_mappings (schema m)) -> In x (property_ids pm) ->
  get_property_mapping m x = Some pm.
Proof.
  intros Hn Hin Hx; unfold get_property_mapping.
  apply find_unique; [exact Hin | apply in4_spec, Hx|].
  intros b Hb Hf; apply in4_spec in Hf.
  exact (nodup_flat_map_same property_ids _ b pm x Hn Hb Hin Hf Hx).
Qed.

(** X11: when no identifier is shared between mappings (the local names,
    URIs, Wikidata ids and Wikidata URIs of all class and property
    mappings are pairwise distinct), [translate_to_wikidata] and
    [translate_from_wikidata] are inverse on every mapping: a class or
    property local name translates to its Wikidata id and back. *)
Theorem translate_round_trip (m : SchemaMapper) :
  NoDup (app (flat_map class_ids (class_mappings (schema m)))
             (flat_map property_ids (property_mappings (schema m)))) ->
  (forall cm, In cm (class_mappings (schema m)) ->
     translate_to_wikidata m (cm_ontology_local cm) = Some (cm_wikidata_id cm) /\
     translate_from_wikidata m (cm_wikidata_id cm) = Some (cm_ontology_local cm)) /\
  (forall pm, In pm (property_mappings (schema m)) ->
     translate_to_wikidata m (pm_ontology_local pm) = Some (pm_wikidata_id pm) /\
     translate_from_wikidata m (pm_wikidata_id pm) = Some (pm_ontology_local pm)).
Proof.
  intro Hn.
  pose proof (NoDup_app_remove_r _ _ Hn) as Hc.
  pose proof (NoDup_app_remove_l _ _ Hn) as Hp.
  assert (Hnc : forall x, In x (flat_map property_ids (property_mappings (schema m))) ->
                get_class_mapping m x = None).
  { intros x Hx; unfold get_class_mapping; apply find_none_all.
    intros b Hb; destruct (in4 x _ _ _ _) eqn:E; [|reflexivity].
    apply in4_spec in E; exfalso.
    apply (nodup_app_disjoint _ _ x Hn); [apply in_flat_map; exists b; split; assumption | exact Hx]. }
  split.
  - intros cm Hin; unfold translate_to_wikidata, translate_from_wikidata.
    rewrite (class_lookup_unique m cm (cm_ontology_local cm)) by (auto; simpl; tauto).
    rewrite (class_lookup_unique m cm (cm_wikidata_id cm)) by (auto; simpl; tauto).
    split; reflexivity.
  - intros pm Hin; unfold translate_to_wikidata, translate_from_wikidata.
    assert (H1 : In (pm_ontology_local pm) (flat_map property_ids (property_mappings (schema m))))
      by (apply in_flat_map; exists pm; simpl; tauto).
    assert (H2 : In (pm_wikidata_id pm) (flat_map property_ids (property_mappings (schema m))))
      by (apply in_flat_map; exists pm; simpl; tauto).
    rewrite (Hnc _ H1), (Hnc _ H2).
    rewrite (property_lookup_unique m pm (pm_ontology_local pm)) by (auto; simpl; tauto).
    rewrite (property_lookup_unique m pm (pm_wikidata_id pm)) by (auto; simpl; tauto).
    split; reflexivity.
Qed.
Lemma translate_round_trip_witness :
  (forall cm, In cm (class_mappings (schema fixture_mapper)) ->
     translate_to_wikidata fixture_mapper (cm_ontology_local cm) = Some (cm_wikidata_id cm) /\
     translate_from_wikidata fixture_mapper (cm_wikidata_id cm) = Some (cm_ontology_local cm)) /\
  (forall pm, In pm (property_mappings (schema fixture_mapper)) ->
     translate_to_wikidata fixture_mapper (pm_ontology_local pm) = Some (pm_wikidata_id pm) /\
     translate_from_wikidata fixture_mapper (pm_wikidata_id pm) = Some (pm_ontology_local pm)).
Proof.
  apply (translate_round_trip fixture_mapper).
  vm_compute. repeat constructor. all: simpl; intuition discriminate.
Defined.

Lemma find_app {A} (f : A -> bool) (l1 l2 : list A) :
  find f (app l1 l2) = match find f l1 with Some x => Some x | None => find f l2 end.
Proof. induction l1 as [|x l1 IH]; simpl; [reflexivity|]; destruct (f x); auto. Qed.

Lemma fold_expected_lookup (l : list PropertyMapping) (acc : list (string * ExpectedProperty))
  (k : string) :
  dget (fold_left (fun acc pm =>
          dset acc (pm_ontology_local pm)
               (mkExpected (pm_wikidata_id pm) (pm_property_type pm)
                           (pm_range pm) (pm_label pm) false)) l acc) k =
  match find (fun pm => String.eqb (pm_ontology_local pm) k) (rev l) with
  | Some pm => Some (mkExpected (pm_wikidata_id pm) (pm_property_type pm)
                                (pm_range pm) (pm_label pm) false)
  | None => dget acc k
  end.
Proof.
  revert acc; induction l as [|x l IH]; intro acc; cbn [fold_left rev]; [reflexivity|].
  rewrite IH, find_app; cbn [find].
  destruct (find _ (rev l)); [reflexivity|].
  rewrite dget_dset, String.eqb_sym.
  destruct (String.eqb (pm_ontology_local x) k); reflexivity.
Qed.

(** X12: the entry of [get_expected_properties_for_class] under a name
    [k] is built from the last property of the class whose local name is
    [k] (a later property overwrites an earlier one of the same name);
    there is no entry when no property of the class has that name, and
    none at all for an unknown class. *)
Theorem expected_properties_lookup (m : SchemaMapper) (c k : string) :
  dget (get_expected_properties_for_class m c) k =
  match find (fun pm => String.eqb (pm_ontology_local pm) k)
             (rev (get_properties_for_class m c)) with
  | Some pm => Some (mkExpected (pm_wikidata_id pm) (pm_property_type pm)
                                (pm_range pm) (pm_label pm) false)
  | None => None
  end.
Proof.
  unfold get_expected_properties_for_class.
  destruct (get_class_mapping m c) eqn:Hc.
  - rewrite fold_expected_lookup; destruct (find _ _); reflexivity.
  - unfold get_properties_for_class; rewrite Hc; reflexivity.
Qed.

(* ------------------------------------------------------------------ *)
(** ** generate_validation_query and the query tails *)

Lemma prefix_self (p : string) : String.prefix p p = true.
Proof.
  induction p as [|c p IH]; [reflexivity|].
  simpl; destruct (ascii_dec c c) as [_|n]; [exact IH | contradiction].
Qed.

Lemma contains_self (p : string) : contains p p = true.
Proof.
  destruct p as [|c p]; [reflexivity|].
  change (String.prefix (String c p) (String c p) || contains (String c p) p = true).
  rewrite prefix_self; reflexivity.
Qed.

Lemma dget_some_in {V} (d : list (string * V)) (k : string) (v : V) :
  dget d k = Some v -> In (k, v) d.
Proof.
  induction d as [|[k0 v0] d IH]; simpl; [discriminate|].
  destruct (String.eqb_spec k k0) as [->|]; intro H.
  - injection H as <-; left; reflexivity.
  - right; exact (IH H).
Qed.

Lemma join_snoc (sep x : string) (l : list string) :
  l <> [] -> join sep (app l [x]) = (join sep l ++ sep ++ x)%string.
Proof.
  intros Hl; induction l as [|y l IH]; [contradiction|].
  destruct l as [|y' l]; [reflexivity|].
  cbn [app] in IH |- *.
  change (join sep (y :: y' :: app l [x]))
    with (y ++ sep ++ join sep (y' :: app l [x]))%string.
  rewrite IH by discriminate.
  change (join sep (y :: y' :: l)) with (y ++ sep ++ join sep (y' :: l))%string.
  rewrite <- !str_app_assoc; reflexivity.
Qed.

Lemma join_app (sep : string) (l1 l2 : list string) :
  l1 <> [] -> l2 <> [] -> join sep (app l1 l2) = (join sep l1 ++ sep ++ join sep l2)%string.
Proof.
  induction l1 as [|x l1 IH]; intros H1 H2; [contradiction|].
  destruct l1 as [|y l1].
  - destruct l2 as [|z l2]; [contradiction | reflexivity].
  - cbn [app] in IH |- *.
    change (join sep (x :: y :: app l1 l2))
      with (x ++ sep ++ join sep (y :: app l1 l2))%string.
    rewrite IH by (discriminate || exact H2).
    change (join sep (x :: y :: l1)) with (x ++ sep ++ join sep (y :: l1))%string.
    rewrite <- !str_app_assoc; reflexivity.
Qed.

Lemma filtered_query_tail (sv pats opts fs page : list string) :
  page <> [] ->
  exists pre, filtered_query sv pats opts fs page = (pre ++ nl ++ join nl page)%string.
Proof.
  intro Hp; unfold filtered_query; cbv zeta.
  eexists; rewrite !app_assoc, join_app; [reflexivity | | exact Hp].
  intro E; apply app_eq_nil in E as [E _]; apply app_eq_nil in E as [E _]; discriminate E.
Qed.

Lemma fmt_int_inv (z : Z) (s : string) : fmt_int z = Ok s -> s = str_int z.
Proof.
  unfold fmt_int; destruct (Nat.leb _ _); intro H; [injection H as <-; reflexivity | discriminate].
Qed.

Lemma fmt_int_long (z : Z) :
  (MAX_STR_DIGITS < int_digits z)%nat -> fmt_int z = Raise (ValueError int_str_limit_msg).
Proof.
  unfold fmt_int; intro H; destruct (Nat.leb_spec (int_digits z) MAX_STR_DIGITS); [lia | reflexivity].
Qed.

Lemma fmt_int_short (z : Z) :
  (int_digits z <= MAX_STR_DIGITS)%nat -> fmt_int z = Ok (str_int z).
Proof.
  unfold fmt_int; intro H; destruct (Nat.leb_spec (int_digits z) MAX_STR_DIGITS); [reflexivity | lia].
Qed.

Lemma int_filter_cases (p : string) (o : option Z) :
  (exists l, int_filter p o = Ok l) \/ int_filter p o = Raise (ValueError int_str_limit_msg).
Proof.
  unfold int_filter; destruct (given_int o) as [y|]; [|left; eexists; reflexivity].
  unfold fmt_int; destruct (Nat.leb _ _); cbn [py_bind]; [left; eexists; reflexivity | right; reflexivity].
Qed.

Lemma page_lines_ok (limit offset : Z) (page : list string) :
  page_lines limit offset = Ok page ->
  join nl page =
    ("LIMIT " ++ str_int limit ++
     (if (0 <? offset)%Z then nl ++ "OFFSET " ++ str_int offset else ""))%string /\
  page <> [].
Proof.
  unfold page_lines.
  destruct (fmt_int limit) as [ls|e] eqn:L; cbn [py_bind]; [|discriminate].
  apply fmt_int_inv in L; subst ls.
  destruct (0 <? offset)%Z.
  - destruct (fmt_int offset) as [os|e] eqn:O; cbn [py_bind]; [|discriminate].
    apply fmt_int_inv in O; subst os.
    intro H; injection H as <-; split; [|discriminate].
    cbn [join]; reflexivity.
  - intro H; injection H as <-; split; [|discriminate].
    cbn [join]; rewrite str_app_nil_r; reflexivity.
Qed.

Lemma page_lines_long (limit offset : Z) :
  (MAX_STR_DIGITS < int_digits limit)%nat ->
  page_lines limit offset = Raise (ValueError int_str_limit_msg).
Proof. intro H; unfold page_lines; rewrite (fmt_int_long _ H); reflexivity. Qed.

(** X14: in [generate_validation_query], for every entry [k] of
    [get_expected_properties_for_class] whose ["wikidata_property"] is
    non-empty, the validation query contains the line
    [OPTIONAL { ?item wdt:<wikidata_property> ?k . }]. *)
Theorem validation_query_optional_line (m : SchemaMapper) (c q k : string)
  (ep : ExpectedProperty) :
  dget (get_expected_properties_for_class m c) k = Some ep ->
  ep_wikidata_property ep <> "" ->
  contains ("OPTIONAL { ?item wdt:" ++ ep_wikidata_property ep ++ " " ++ ("?" ++ k) ++ " . }")
           (generate_validation_query m c q) = true.
Proof.
  intros Hk Hwd.
  apply dget_some_in in Hk.
  unfold generate_validation_query; cbv zeta.
  do 12 apply contains_app_r.
  apply contains_app_l.
  apply (contains_join _ _ ("  " ++ ("OPTIONAL { ?item wdt:" ++ ep_wikidata_property ep ++ " "
                                       ++ ("?" ++ k) ++ " . }"))).
  - apply in_map, in_flat_map.
    exists (k, ep); split; [exact Hk|].
    simpl; destruct (String.eqb_spec (ep_wikidata_property ep) "") as [E|_];
      [contradiction | left; reflexivity].
  - apply contains_app_r, contains_self.
Qed.

Lemma validation_query_optional_line_witness :
  dget (get_expected_properties_for_class fixture_mapper "Author") "birthDate" =
    Some (mkExpected "P569" "DatatypeProperty"
            (Some "http://www.w3.org/2001/XMLSchema#date") (Some "birth date") false) /\
  "P569" <> "" /\
  contains ("OPTIONAL { ?item wdt:" ++ "P569" ++ " " ++ ("?" ++ "birthDate") ++ " . }")
           (generate_validation_query fixture_mapper "Author" "Q23434") = true.
Proof.
  assert (Hd : dget (get_expected_properties_for_class fixture_mapper "Author") "birthDate" =
    Some (mkExpected "P569" "DatatypeProperty"
            (Some "http://www.w3.org/2001/XMLSchema#date") (Some "birth date") false))
    by (vm_compute; reflexivity).
  assert (Hne : "P569" <> "") by discriminate.
  split; [exact Hd|]; split; [exact Hne|].
  exact (validation_query_optional_line fixture_mapper "Author" "Q23434" "birthDate" _ Hd Hne).
Defined.

(** X15: [generate_validation_query], for an entity type with no class mapping
    the generator does not raise; it returns the query that selects only
    [?item] and [?itemLabel], binds [?item] to the given QID, and has no
    OPTIONAL line. *)
Theorem validation_query_unmapped (m : SchemaMapper) (c q : string) :
  get_class_mapping m c = None ->
  generate_validation_query m c q =
    (WIKIDATA_PREFIXES ++ nl ++ "SELECT ?item ?itemLabel" ++ nl ++
     "WHERE {" ++ nl ++
     "  BIND(wd:" ++ q ++ " AS ?item)" ++ nl ++
     "  " ++ nl ++
     LABEL_SERVICE ++ nl ++ "}")%string.
Proof.
  intro H; unfold generate_validation_query, get_expected_properties_for_class.
  rewrite H; reflexivity.
Qed.

Lemma validation_query_unmapped_witness :
  get_class_mapping fixture_mapper "Publisher" = None /\
  generate_validation_query fixture_mapper "Publisher" "Q1" =
    (WIKIDATA_PREFIXES ++ nl ++ "SELECT ?item ?itemLabel" ++ nl ++
     "WHERE {" ++ nl ++
     "  BIND(wd:" ++ "Q1" ++ " AS ?item)" ++ nl ++
     "  " ++ nl ++
     LABEL_SERVICE ++ nl ++ "}")%string.
Proof.
  assert (H : get_class_mapping fixture_mapper "Publisher" = None) by (vm_compute; reflexivity).
  split; [exact H|].
  exact (validation_query_unmapped fixture_mapper "Publisher" "Q1" H).
Defined.

(** X16: [generate_author_query] and [generate_work_query] both end,
    whenever they return, with the line [LIMIT <limit>], followed by a line
    [OFFSET <offset>] exactly when [offset > 0], and nothing after; and a
    [limit] of more than 4300 digits makes both raise Python's
    [ValueError] for the integer-to-string conversion. *)
Theorem query_pagination_tail (a c mv : option string) (ys ye : option Z)
  (limit offset : Z) :
  (forall q, generate_author_query a c mv ys ye limit offset = Ok q ->
   exists pre, q =
     (pre ++ nl ++ "LIMIT " ++ str_int limit ++
      (if (0 <? offset)%Z then nl ++ "OFFSET " ++ str_int offset else ""))%string) /\
  (forall q, generate_work_query a c mv ys ye limit offset = Ok q ->
   exists pre, q =
     (pre ++ nl ++ "LIMIT " ++ str_int limit ++
      (if (0 <? offset)%Z then nl ++ "OFFSET " ++ str_int offset else ""))%string) /\
  ((MAX_STR_DIGITS < int_digits limit)%nat ->
   generate_author_query a c mv ys ye limit offset = Raise (ValueError int_str_limit_msg) /\
   generate_work_query a c mv ys ye limit offset = Raise (ValueError int_str_limit_msg)).
Proof.
  split; [|split].
  1, 2: intros q H; unfold generate_author_query, generate_work_query in H; cbv zeta in H;
    repeat match type of H with
    | context [py_bind (int_filter ?p ?o) _] =>
        destruct (int_filter p o); cbn [py_bind] in H; [|discriminate H]
    end;
    destruct (page_lines limit offset) as [page|e] eqn:P; cbn [py_bind] in H; [|discriminate H];
    injection H as <-;
    destruct (page_lines_ok _ _ _ P) as [J Hp];
    match goal with
    | |- exists pre, filtered_query ?sv ?pt ?op ?fs page = _ =>
        destruct (filtered_query_tail sv pt op fs page Hp) as [pre E]
    end;
    exists pre; rewrite E, J; reflexivity.
  - intro Hl; unfold generate_author_query, generate_work_query; cbv zeta.
    split;
    repeat match goal with
    | |- context [py_bind (int_filter ?p ?o) _] =>
        destruct (int_filter_cases p o) as [[? ->]| ->]; cbn [py_bind]; [|reflexivity]
    end;
    rewrite (page_lines_long _ _ Hl); reflexivity.
Qed.

Lemma query_pagination_tail_witness :
  (exists q, generate_author_query None None None None None 100 20 = Ok q /\
   exists pre, q =
     (pre ++ nl ++ "LIMIT " ++ str_int 100 ++
      (if (0 <? 20)%Z then nl ++ "OFFSET " ++ str_int 20 else ""))%string) /\
  generate_work_query None None None None None (10 ^ 4300) 0 =
    Raise (ValueError int_str_limit_msg).
Proof.
  destruct (query_pagination_tail None None None None None 100 20) as [HA _].
  destruct (query_pagination_tail None None None None None (10 ^ 4300) 0) as [_ [_ HL]].
  assert (Hq : generate_author_query None None None None None 100 20 =
    Ok (match generate_author_query None None None None None 100 20 with
        | Ok q => q | Raise _ => "" end)) by (vm_compute; reflexivity).
  split; [eexists; split; [exact Hq | exact (HA _ Hq)]|].
  assert (Hd : (MAX_STR_DIGITS < int_digits (10 ^ 4300))%nat)
    by (apply Nat.ltb_lt; vm_compute; reflexivity).
  exact (proj2 (HL Hd)).
Defined.

(* ------------------------------------------------------------------ *)
(** ** C5: [generate_entity_query] *)

(** C5 (corrected): [generate_entity_query] raises
    [ValueError("Unknown entity type: ...")] for every entity type without
    a class mapping. For every mapped type and [qid = "Q23434"] it returns
    a query when [limit] has at most 4300 digits and raises Python's
    [ValueError] for the integer-to-string conversion otherwise; every
    query it returns contains [BIND(wd:Q23434 AS ?item)], and contains no
    [?item wdt:P31/wdt:P279*] pattern provided no property local name or
    Wikidata id of the type has a ['*'] (a local name can otherwise spell
    the pattern in the SELECT line, see [C5_star_counterexample]). *)
Theorem C5_entity_query (m : SchemaMapper) (t : string) (q : option string) (il : bool) (l : Z) :
  (get_class_mapping m t = None ->
   generate_entity_query m t q il l = Raise (ValueError ("Unknown entity type: " ++ t))) /\
  (get_class_mapping m t <> None ->
   ((int_digits l <= MAX_STR_DIGITS)%nat ->
    exists qs, generate_entity_query m t (Some "Q23434") il l = Ok qs) /\
   ((MAX_STR_DIGITS < int_digits l)%nat ->
    generate_entity_query m t (Some "Q23434") il l = Raise (ValueError int_str_limit_msg)) /\
   (forall qs, generate_entity_query m t (Some "Q23434") il l = Ok qs ->
    contains "BIND(wd:Q23434 AS ?item)" qs = true /\
    (star_free_props (get_properties_for_class m t) = true ->
     contains "?item wdt:P31/wdt:P279*" qs = false))).
Proof.
  split.
  - intro H; unfold generate_entity_query; rewrite H; reflexivity.
  - intros Hm.
    destruct (get_class_mapping m t) as [cm|] eqn:Hcm; [|congruence].
    unfold generate_entity_query; rewrite Hcm.
    set (ps := get_properties_for_class m t).
    replace (given_str (Some "Q23434")) with (Some "Q23434") by reflexivity.
    cbv match beta zeta.
    split; [|split].
    + intro Hd; rewrite (fmt_int_short _ Hd); cbn [py_bind]; eexists; reflexivity.
    + intro Hd; rewrite (fmt_int_long _ Hd); reflexivity.
    + intros qs H.
      destruct (fmt_int l) as [ls|e] eqn:F; cbn [py_bind] in H; [|discriminate H].
      apply fmt_int_inv in F; subst ls.
      apply (f_equal (fun r => match r with Ok x => x | Raise _ => qs end)) in H.
      cbv beta match in H; subst qs; split.
      * apply (contains_join _ _ ("  " ++ "BIND(wd:Q23434 AS ?item)")); [|reflexivity].
        apply in_or_app; left; simpl; tauto.
      * intro Hs.
        destruct (contains _ _) eqn:E; [exfalso|reflexivity].
        apply (contains_has_char "*") in E; [|reflexivity].
        rewrite has_char_join in E; [discriminate E | reflexivity |].
        intros s Hin; apply in_app_or in Hin; destruct Hin as [Hin|Hin].
        -- destruct Hin as [<-|[<-|[<-|[<-|[<-|[]]]]]].
           ++ vm_compute; reflexivity.
           ++ rewrite has_char_app; apply orb_false_iff; split; [reflexivity|].
              apply has_char_join; [reflexivity|].
              intros x [<-|[<-|Hx]]; [reflexivity|reflexivity|].
              apply in_flat_map in Hx as [pm [Hpm Hx]].
              destruct (star_free_props_in ps pm Hs Hpm) as [H1 H2].
              unfold entity_select_vars in Hx.
              destruct (String.eqb (pm_property_type pm) "ObjectProperty");
                simpl in Hx; repeat destruct Hx as [<-|Hx]; try contradiction;
                simpl; rewrite ?has_char_app, H1; reflexivity.
           ++ reflexivity.
           ++ reflexivity.
           ++ rewrite has_char_app; apply orb_false_iff; split; [reflexivity|].
              apply has_char_join; [reflexivity|].
              intros x Hx; apply in_map_iff in Hx as [pm [<- Hpm]].
              destruct (star_free_props_in ps pm Hs Hpm) as [H1 H2].
              unfold entity_optional; rewrite !has_char_app, H1, H2; reflexivity.
        -- apply in_app_or in Hin; destruct Hin as [Hin|[<-|[<-|[]]]].
           ++ destruct il; simpl in Hin;
                [destruct Hin as [<-|[]]; vm_compute; reflexivity | contradiction].
           ++ reflexivity.
           ++ rewrite has_char_app, has_char_str_int; reflexivity.
Qed.

Lemma C5_entity_query_witness :
  generate_entity_query fixture_mapper "Bogus" None true 100 =
    Raise (ValueError "Unknown entity type: Bogus") /\
  (exists qs, generate_entity_query fixture_mapper "Author" (Some "Q23434") true 100 = Ok qs /\
    contains "BIND(wd:Q23434 AS ?item)" qs = true /\
    contains "?item wdt:P31/wdt:P279*" qs = false) /\
  generate_entity_query fixture_mapper "Author" (Some "Q23434") true (10 ^ 4300) =
    Raise (ValueError int_str_limit_msg).
Proof.
  destruct (C5_entity_query fixture_mapper "Bogus" None true 100) as [H1 _].
  destruct (C5_entity_query fixture_mapper "Author" None true 100) as [_ H2].
  destruct (C5_entity_query fixture_mapper "Author" None true (10 ^ 4300)) as [_ H3].
  assert (Hb : get_class_mapping fixture_mapper "Bogus" = None) by (vm_compute; reflexivity).
  assert (Ha : get_class_mapping fixture_mapper "Author" <> None)
    by (intro H; vm_compute in H; discriminate H).
  assert (Hs : star_free_props (get_properties_for_class fixture_mapper "Author") = true)
    by (vm_compute; reflexivity).
  assert (Hd : (int_digits 100 <= MAX_STR_DIGITS)%nat) by (apply Nat.leb_le; vm_compute; reflexivity).
  assert (Hd' : (MAX_STR_DIGITS < int_digits (10 ^ 4300))%nat)
    by (apply Nat.ltb_lt; vm_compute; reflexivity).
  destruct (H2 Ha) as [Hok [_ Hc]].
  destruct (Hok Hd) as [qs Hq].
  split; [exact (H1 Hb)|]; split.
  - exists qs; split; [exact Hq|]; split; [exact (proj1 (Hc qs Hq)) | exact (proj2 (Hc qs Hq) Hs)].
  - exact (proj1 (proj2 (H3 Ha)) Hd').
Defined.

(** C5 counterexample: with an ontology property of Author whose local
    name is [item wdt:P31/wdt:P279*], the query generated for Author with
    [qid = "Q23434"] does contain [?item wdt:P31/wdt:P279*] (the select
    variable [?] followed by that local name). *)
Lemma C5_star_counterexample :
  get_class_mapping star_mapper "Author" <> None /\
  exists qs, generate_entity_query star_mapper "Author" (Some "Q23434") true 100 = Ok qs /\
    contains "BIND(wd:Q23434 AS ?item)" qs = true /\
    contains "?item wdt:P31/wdt:P279*" qs = true.
Proof.
  split; [intro H; vm_compute in H; discriminate H|].
  exists (match generate_entity_query star_mapper "Author" (Some "Q23434") true 100 with
          | Ok qs => qs | Raise _ => "" end).
  split; [vm_compute; reflexivity|]; split; vm_compute; reflexivity.
Qed.

(* ------------------------------------------------------------------ *)
(** ** C7: [required] is always false, and its effect on [validate_entity] *)

Lemma fold_check_field_issues_prefix (m : SchemaMapper) (E : list (string * ExpectedProperty))
  (s : bool) (d : list (string * pyval)) (r : ValidationResult) :
  exists ls, issues (fold_left (check_field m E s) d r) = app (issues r) ls.
Proof.
  revert r; induction d as [|[k v] d IH]; intro r; cbn [fold_left].
  - exists []; rewrite app_nil_r; reflexivity.
  - destruct (IH (check_field m E s r (k, v))) as [ls Hls]; rewrite Hls.
    unfold check_field.
    destruct (is_meta_field k); [exists ls; reflexivity|].
    destruct (dget E k).
    + rewrite issues_add_issues, <- app_assoc; eexists; reflexivity.
    + destruct (match translate_from_wikidata m k with Some s => _ | None => false end);
        [exists ls; reflexivity|].
      rewrite issues_add_issue, <- app_assoc; eexists; reflexivity.
Qed.

Lemma fold_check_field_issues_ext (m : SchemaMapper) (E : list (string * ExpectedProperty))
  (s : bool) (d : list (string * pyval)) (r1 r2 : ValidationResult) :
  issues r1 = issues r2 ->
  issues (fold_left (check_field m E s) d r1) = issues (fold_left (check_field m E s) d r2).
Proof.
  revert r1 r2; induction d as [|[k v] d IH]; intros r1 r2 H; cbn [fold_left]; [exact H|].
  apply IH; unfold check_field.
  destruct (is_meta_field k); [exact H|].
  destruct (dget E k); [rewrite !issues_add_issues, H; reflexivity|].
  destruct (match translate_from_wikidata m k with Some s => _ | None => false end);
    [exact H | rewrite !issues_add_issue, H; reflexivity].
Qed.

(** Removing one field from an entity whose field loop emits no issue
    leaves a field loop that emits no issue. *)
Lemma fold_check_field_drop_clean (m : SchemaMapper) (E : list (string * ExpectedProperty))
  (s : bool) (d1 d2 : list (string * pyval)) (k : string) (v : pyval) (r : ValidationResult) :
  issues (fold_left (check_field m E s) (app d1 ((k, v) :: d2)) r) = [] ->
  issues (fold_left (check_field m E s) (app d1 d2) r) = [].
Proof.
  rewrite !fold_left_app; cbn [fold_left].
  set (ra := fold_left (check_field m E s) d1 r).
  set (rb := check_field m E s ra (k, v)).
  intro H.
  destruct (fold_check_field_issues_prefix m E s d2 rb) as [ls Hls].
  assert (Hb : issues rb = []) by (rewrite Hls in H; apply app_eq_nil in H; tauto).
  destruct (fold_check_field_issues_prefix m E s [(k, v)] ra) as [ls' Hls'].
  cbn [fold_left] in Hls'; fold rb in Hls'.
  rewrite Hb in Hls'; symmetry in Hls'; apply app_eq_nil in Hls' as [Ha _].
  rewrite <- H.
  apply fold_check_field_issues_ext; rewrite Ha, Hb; reflexivity.
Qed.

Lemma dset_keys_nodup {V} (d : list (string * V)) (k : string) (v : V) :
  NoDup (map fst d) -> NoDup (map fst (dset d k v)).
Proof.
  assert (Hin : forall (d : list (string * V)) x, In x (map fst (dset d k v)) -> x = k \/ In x (map fst d)).
  { clear d; induction d as [|[k0 v0] d IH]; intros x Hx; simpl in Hx |- *.
    - destruct Hx as [<-|[]]; left; reflexivity.
    - destruct (String.eqb k k0); simpl in Hx; [tauto|].
      destruct Hx as [<-|Hx]; [tauto|]; destruct (IH x Hx); tauto. }
  induction d as [|[k0 v0] d IH]; intro H; simpl.
  - constructor; [intros []|constructor].
  - inversion H as [|? ? Hn Hd]; subst.
    destruct (String.eqb_spec k k0) as [<-|Hk]; simpl; [exact H|].
    constructor; [|apply IH, Hd].
    intro Hx; destruct (Hin d k0 Hx) as [->|Hx']; [exact (Hk eq_refl) | exact (Hn Hx')].
Qed.

Lemma expected_props_fold (m : SchemaMapper) (t : string) :
  get_expected_properties_for_class m t =
  match get_class_mapping m t with
  | None => []
  | Some _ => fold_left expected_step (get_properties_for_class m t) []
  end.
Proof. reflexivity. Qed.

Lemma expected_props_nodup (m : SchemaMapper) (t : string) :
  NoDup (map fst (get_expected_properties_for_class m t)).
Proof.
  rewrite expected_props_fold; destruct (get_class_mapping m t); [|constructor].
  assert (G : forall ps acc, NoDup (map fst acc) -> NoDup (map fst (fold_left expected_step ps acc))).
  { induction ps as [|pm ps IH]; intros acc H; simpl; [exact H|].
    apply IH; unfold expected_step; apply dset_keys_nodup, H. }
  apply G; constructor.
Qed.

Lemma expected_props_not_required (m : SchemaMapper) (t k : string) (info : ExpectedProperty) :
  dget (get_expected_properties_for_class m t) k = Some info -> ep_required info = false.
Proof.
  rewrite expected_props_fold; destruct (get_class_mapping m t); [|discriminate].
  assert (Inv : forall ps acc,
    (forall info, dget acc k = Some info -> ep_required info = false) ->
    forall info, dget (fold_left expected_step ps acc) k = Some info -> ep_required info = false).
  { induction ps as [|pm ps IH]; intros acc Hacc; simpl; [exact Hacc|].
    apply IH; intros info'; unfold expected_step; rewrite dget_dset.
    destruct (String.eqb k _); [intro H; injection H as <-; reflexivity | apply Hacc]. }
  apply Inv; discriminate.
Qed.

Lemma filter_nil_false {A} (P : A -> bool) (l : list A) (x : A) :
  filter P l = [] -> In x l -> P x = false.
Proof.
  intros H Hx; destruct (P x) eqn:Px; [|reflexivity].
  assert (In x (filter P l)) by (apply filter_In; split; assumption).
  rewrite H in H0; destruct H0.
Qed.

(** With unique keys, only the entry for [k] passes a filter that keeps
    [k] and no other key. *)
Lemma filter_single_key {V} (P : string * V -> bool) (d : list (string * V)) (k : string) (x : V) :
  NoDup (map fst d) -> dget d k = Some x -> P (k, x) = true ->
  (forall p, In p d -> fst p <> k -> P p = false) ->
  filter P d = [(k, x)].
Proof.
  induction d as [|[k0 v0] d IH]; intros Hn Hg HP Ho; [discriminate Hg|].
  inversion Hn as [|? ? Hk Hd]; subst; simpl in Hg |- *.
  destruct (String.eqb_spec k k0) as [<-|Hne].
  - injection Hg as <-; rewrite HP; f_equal.
    apply filter_none, forallb_forall; intros p Hp.
    rewrite (Ho p (or_intror Hp)); [reflexivity|].
    intro E; apply Hk; rewrite <- E; apply in_map, Hp.
  - rewrite (Ho (k0, v0) (or_introl eq_refl) (not_eq_sym Hne)).
    apply IH; auto; intros p Hp; apply Ho; right; exact Hp.
Qed.

(** C7: every entry of [get_expected_properties_for_class] has
    [required = false], for any schema and class. Consequently, in
    non-strict mode, when an entity's only discrepancy is one expected
    property [k] it lacks (the entity with [k] added, at any position and
    with any value, validates with no issue at all), validating the
    entity gives exactly one issue, the [missing_required] one for [k], at
    INFO severity; it has no ERROR issue, [error_count] is 0 and [valid]
    is true. The entity validates without raising whenever [k] is not one
    of the id keys [_extract_entity_id] reads. *)
Theorem C7_required_false (m : SchemaMapper) (t k : string) :
  (forall info, dget (get_expected_properties_for_class m t) k = Some info ->
     ep_required info = false) /\
  (forall (d1 d2 : list (string * pyval)) (v : pyval) (ep : ExpectedProperty)
          (r' : ValidationResult),
     dget (get_expected_properties_for_class m t) k = Some ep ->
     ~ In k (map fst (app d1 d2)) ->
     validate_entity m t (app d1 ((k, v) :: d2)) false = Ok r' -> issues r' = [] ->
     (~ In k ["qid"; "id"; "uri"; "item"] ->
      exists r, validate_entity m t (app d1 d2) false = Ok r) /\
     forall r, validate_entity m t (app d1 d2) false = Ok r ->
       issues r = [missing_issue false (k, ep)] /\
       map (fun i => (vi_field i, vi_severity i))
           (filter (fun i => vtype_eqb (vi_type i) MISSING_REQUIRED) (issues r)) = [(k, INFO)] /\
       existsb (fun i => severity_eqb (vi_severity i) ERROR) (issues r) = false /\
       error_count r = 0 /\ valid r = true).
Proof.
  split; [intros info; apply expected_props_not_required|].
  intros d1 d2 v ep r' He Hn Hr' Hi'.
  set (E := get_expected_properties_for_class m t) in *.
  destruct (expected_props_class_mapped m t k ep He) as [cm Hcm].
  assert (Hreq : ep_required ep = false) by exact (expected_props_not_required m t k ep He).
  unfold validate_entity in Hr'.
  destruct (validate_entity_id_field (extract_entity_id (app d1 ((k, v) :: d2)))) as [eid'|e] eqn:Ee';
    cbn [py_bind] in Hr'; [|discriminate Hr'].
  rewrite Hcm in Hr'; fold E in Hr'; injection Hr' as <-.
  rewrite issues_fold_check_missing in Hi'; apply app_eq_nil in Hi' as [Hf' Hm'].
  apply map_eq_nil in Hm'.
  split.
  - intro Hid; unfold validate_entity.
    rewrite <- extract_entity_id_skip with (f := k) (v := v)
      by (intros x Hx E'; subst x; exact (Hid Hx)).
    rewrite Ee'; cbn [py_bind]; rewrite Hcm; eexists; reflexivity.
  - intros r Hr.
    pose proof (validate_entity_ok_c1 m t (app d1 d2) false r Hr) as [Hv [He0 _]].
    assert (Hiss : issues r = [missing_issue false (k, ep)]).
    { unfold validate_entity in Hr.
      destruct (validate_entity_id_field (extract_entity_id (app d1 d2))) as [eid|e];
        cbn [py_bind] in Hr; [|discriminate Hr].
      rewrite Hcm in Hr; fold E in Hr; injection Hr as <-.
      rewrite issues_fold_check_missing.
      rewrite (fold_check_field_drop_clean m E false d1 d2 k v _
                 (eq_trans (fold_check_field_issues_ext m E false _ (mkResult true t eid [] 0 0 0)
                              (mkResult true t eid' [] 0 0 0) eq_refl) Hf')).
      rewrite (filter_single_key _ E k ep (expected_props_nodup m t) He); [reflexivity| |].
      + unfold dmem; rewrite dget_absent by exact Hn; reflexivity.
      + intros p Hp Hpk.
        rewrite <- (dmem_skip d1 d2 k (fst p) v Hpk).
        exact (filter_nil_false _ _ p Hm' Hp). }
    assert (Hsev : vi_severity (missing_issue false (k, ep)) = INFO)
      by (unfold missing_issue; rewrite Hreq; reflexivity).
    assert (Hty : vi_type (missing_issue false (k, ep)) = MISSING_REQUIRED) by reflexivity.
    assert (Hfl : vi_field (missing_issue false (k, ep)) = k) by reflexivity.
    assert (Herr : error_count r = 0) by (rewrite He0, Hiss; unfold count_sev; cbn [filter]; rewrite Hsev; reflexivity).
    rewrite Hiss; cbn [filter]; rewrite Hty; cbn [vtype_eqb map existsb]; rewrite Hfl, Hsev; cbn.
    repeat split; [exact Herr|]; rewrite Hv, Herr; reflexivity.
Qed.

Lemma C7_required_false_witness :
  exists ep r',
    dget (get_expected_properties_for_class fixture_mapper "Author") "birthPlace" = Some ep /\
    validate_entity fixture_mapper "Author" (app c7_data [("birthPlace", PStr "Q1")]) false = Ok r' /\
    issues r' = [] /\
    exists r, validate_entity fixture_mapper "Author" c7_data false = Ok r /\
      issues r = [missing_issue false ("birthPlace", ep)] /\
      map (fun i => (vi_field i, vi_severity i))
          (filter (fun i => vtype_eqb (vi_type i) MISSING_REQUIRED) (issues r)) =
        [("birthPlace", INFO)] /\
      existsb (fun i => severity_eqb (vi_severity i) ERROR) (issues r) = false /\
      error_count r = 0 /\ valid r = true.
Proof.
  destruct (dget (get_expected_properties_for_class fixture_mapper "Author") "birthPlace")
    as [ep|] eqn:He; [|vm_compute in He; discriminate He].
  destruct (validate_entity fixture_mapper "Author" (app c7_data [("birthPlace", PStr "Q1")]) false)
    as [r'|e] eqn:Er'; [|vm_compute in Er'; discriminate Er'].
  assert (Hi' : issues r' = []).
  { assert (Hq : Ok r' = Ok (match validate_entity fixture_mapper "Author"
                    (app c7_data [("birthPlace", PStr "Q1")]) false with
                    | Ok x => x | Raise _ => r' end)) by (rewrite Er'; reflexivity).
    injection Hq as ->; vm_compute; reflexivity. }
  destruct (C7_required_false fixture_mapper "Author" "birthPlace") as [_ H].
  assert (Hn : ~ In "birthPlace" (map fst (app c7_data []))) by (simpl; intuition discriminate).
  assert (Hk : ~ In "birthPlace" ["qid"; "id"; "uri"; "item"]) by (simpl; intuition discriminate).
  destruct (H c7_data [] (PStr "Q1") ep r' He Hn Er' Hi') as [Hex Hall].
  rewrite app_nil_r in Hex, Hall.
  destruct (Hex Hk) as [r Hr].
  exists ep, r'; split; [reflexivity|]; split; [reflexivity|]; split; [exact Hi'|].
  exists r; split; [exact Hr | exact (Hall r Hr)].
Defined.
